(** * Checkout / return workflow of the library catalog manager

    A shallow embedding of [book.py], [user.py] and [check.py]: the three
    in-memory collections (books, users, checkout ledger), the two
    transactions [CheckoutManager.checkout_book] and
    [CheckoutManager.return_book], and the [to_dict] / [from_dict] pairs of
    the three entity classes.

    Conventions of the embedding.
    - Python objects live in exactly one list each ([BookManager.books],
      [UserManager.users], [CheckoutManager.checkouts]); a reference obtained
      by a [next(...)] scan is the position of the object in its list,
      together with the value read there, and an attribute store through the
      reference is an [alter] at that position.
    - A method that mutates and may raise is a computation in the monad [M]:
      it returns an outcome together with the memory it leaves behind.
    - [datetime.now()] is an input of each transaction (the clock reading).
    - The [_save_*] calls rewrite files and touch no attribute of the three
      managers; they are outside the embedding. *)

From stdpp Require Import base option list strings gmap.
From Stdlib Require Import NArith Ascii.

#[local] Set Warnings "-clear-no-such-hyp".


(** ** Values held by the record dictionaries ([json] data) *)

#[warning="-register-all"]
Inductive value :=
| VNone
| VBool (b : bool)
| VStr (s : string)
| VList (l : list value).

Abbreviation dict := (gmap string value).

(** Python truth value of a JSON datum, as tested by [if data[...]:]. *)
Definition truthy (v : value) : bool :=
  match v with
  | VNone => false
  | VBool b => b
  | VStr s => negb (bool_decide (s = ""))
  | VList l => negb (bool_decide (l = []))
  end.

Definition as_str (v : value) : option string :=
  match v with VStr s => Some s | _ => None end.

Definition as_bool (v : value) : option bool :=
  match v with VBool b => Some b | _ => None end.

Definition as_str_list (v : value) : option (list string) :=
  match v with VList l => mapM as_str l | _ => None end.

(** [data[key]] read at the type of the field it initialises. *)
Definition get_str (data : dict) (key : string) : option string :=
  data !! key ≫= as_str.
Definition get_bool (data : dict) (key : string) : option bool :=
  data !! key ≫= as_bool.
Definition get_str_list (data : dict) (key : string) : option (list string) :=
  data !! key ≫= as_str_list.

(** ** The part of Python's [datetime] the code relies on

    [isoformat] / [fromisoformat] are inverse on every datetime (the library
    documents [fromisoformat] as the inverse of [isoformat]), and an
    ISO-8601 rendering is never the empty string.  [plus_days d n] is
    [d + timedelta(days=n)]; clock readings are taken where that sum is
    representable. *)
Class DateTime (datetime : Type) := {
  isoformat : datetime → string;
  fromisoformat : string → option datetime;
  plus_days : datetime → nat → datetime;
  fromisoformat_isoformat d : fromisoformat (isoformat d) = Some d;
  isoformat_nonempty d : isoformat d ≠ "";
}.

(** ** book.py *)
Module Book.
(** [LibraryItem.__init__] sets [title], [item_id] and [is_available];
    [Book.__init__] adds [author]. *)
Record t := mk {
  title : string;
  author : string;
  item_id : string;
  is_available : bool;
}.

Definition init (title author isbn : string) : t :=
  mk title author isbn true.

Definition set_is_available (v : bool) (self : t) : t :=
  mk (title self) (author self) (item_id self) v.

Definition set_title (v : string) (self : t) : t :=
  mk v (author self) (item_id self) (is_available self).

Definition set_author (v : string) (self : t) : t :=
  mk (title self) v (item_id self) (is_available self).

Definition to_dict (self : t) : dict :=
  <["title" := VStr (title self)]>
  (<["author" := VStr (author self)]>
  (<["isbn" := VStr (item_id self)]>
  (<["is_available" := VBool (is_available self)]> ∅))).

(** [None]: a key is missing ([KeyError]) or a value does not have the
    type of its field. *)
Definition from_dict (data : dict) : option t :=
  title ← get_str data "title";
  author ← get_str data "author";
  isbn ← get_str data "isbn";
  let book := init title author isbn in
  avail ← get_bool data "is_available";
  Some (set_is_available avail book).
End Book.

(** ** user.py *)

(** [list.remove(x)]: drops the first occurrence of [x].  (Python raises
    [ValueError] when there is none; the one call site is guarded by [in].) *)
Fixpoint list_remove (x : string) (l : list string) : list string :=
  match l with
  | [] => []
  | y :: l' => if decide (y = x) then l' else y :: list_remove x l'
  end.

(** [q in s] on strings: [q] occurs in [s] as a contiguous substring. *)
Fixpoint str_contains (q s : string) : bool :=
  String.prefix q s
  || match s with
     | EmptyString => false
     | String _ s' => str_contains q s'
     end.

(** Truth value of an optional string argument ([title: str = None]):
    [None] and the empty string are false. *)
Definition given (o : option string) : option string :=
  match o with
  | Some s => if bool_decide (s = "") then None else Some s
  | None => None
  end.

Module User.
Record t := mk {
  name : string;
  user_id : string;
  borrowed_items : list string;
}.

Definition init (name user_id : string) : t := mk name user_id [].

Definition set_borrowed_items (l : list string) (self : t) : t :=
  mk (name self) (user_id self) l.

Definition set_name (v : string) (self : t) : t :=
  mk v (user_id self) (borrowed_items self).

Definition borrow_item (self : t) (item_id : string) : t :=
  if decide (item_id ∉ borrowed_items self)
  then set_borrowed_items (borrowed_items self ++ [item_id]) self
  else self.

Definition return_item (self : t) (item_id : string) : t :=
  if decide (item_id ∈ borrowed_items self)
  then set_borrowed_items (list_remove item_id (borrowed_items self)) self
  else self.

Definition to_dict (self : t) : dict :=
  <["name" := VStr (name self)]>
  (<["user_id" := VStr (user_id self)]>
  (<["borrowed_items" := VList (VStr <$> borrowed_items self)]> ∅)).

Definition from_dict (data : dict) : option t :=
  name ← get_str data "name";
  user_id ← get_str data "user_id";
  let user := init name user_id in
  items ← get_str_list data "borrowed_items";
  Some (set_borrowed_items items user).
End User.

(** ** check.py: the [Checkout] record *)
Module Checkout.
Section with_datetime.
Context {datetime : Type} `{!DateTime datetime}.

Record t := mk {
  user_id : string;
  item_id : string;
  checkout_date : datetime;
  due_date : datetime;
  return_date : option datetime;
}.

(** [__init__]: [now] is what [datetime.now()] returns if it is called
    ([checkout_date or datetime.now()]; a datetime is always true). *)
Definition init (now : datetime) (user_id item_id : string)
    (checkout_date due_date : option datetime) : t :=
  let checkout_date := default now checkout_date in
  let due_date := default (plus_days checkout_date 14) due_date in
  mk user_id item_id checkout_date due_date None.

Definition set_return_date (r : option datetime) (self : t) : t :=
  mk (user_id self) (item_id self) (checkout_date self) (due_date self) r.

Definition return_item (now : datetime) (self : t) : t :=
  set_return_date (Some now) self.

Definition to_dict (self : t) : dict :=
  <["user_id" := VStr (user_id self)]>
  (<["item_id" := VStr (item_id self)]>
  (<["checkout_date" := VStr (isoformat (checkout_date self))]>
  (<["due_date" := VStr (isoformat (due_date self))]>
  (<["return_date" :=
       match return_date self with
       | Some d => VStr (isoformat d)
       | None => VNone
       end]> ∅)))).

(** [None]: [KeyError], a value of the wrong type, or a string that
    [fromisoformat] rejects. *)
Definition from_dict (now : datetime) (data : dict) : option t :=
  user_id ← get_str data "user_id";
  item_id ← get_str data "item_id";
  checkout_date ← get_str data "checkout_date" ≫= fromisoformat;
  due_date ← get_str data "due_date" ≫= fromisoformat;
  let checkout := init now user_id item_id (Some checkout_date) (Some due_date) in
  r ← (data !! "return_date" : option value);
  if truthy r
  then d ← get_str data "return_date" ≫= fromisoformat;
       Some (set_return_date (Some d) checkout)
  else Some checkout.

(** An open loan: [not c.return_date]. *)
Definition is_open (c : t) : Prop := return_date c = None.

Global Instance is_open_dec c : Decision (is_open c).
Proof. unfold is_open. destruct (return_date c); [right|left]; done. Defined.
End with_datetime.
Global Arguments t : clear implicits.
End Checkout.

(** ** Outcomes of methods that may raise *)

Inductive exn := ValueError (msg : string).

Inductive outcome (A : Type) :=
| Returns (a : A)
| Raises (e : exn).
Arguments Returns {A} a.
Arguments Raises {A} e.

(** ** storage.py

    A storage file holds one JSON document, a dictionary from collection
    names to lists of records; a path where [os.path.exists] is false is
    [None].  The write itself ([save_data]) is outside the embedding: the
    [save_*] functions below are the documents handed to it. *)
Abbreviation document := (gmap string (list dict)).

Module Storage.
Definition load_data (file : option document) : document :=
  match file with
  | None => <["books" := []]> (<["users" := []]> (<["checkouts" := []]> ∅))
  | Some data => data
  end.
End Storage.

Module BookStorage.
Definition save_books (books : list dict) : document := {["books" := books]}.
(** [self.load_data().get("books", [])] *)
Definition load_books (file : option document) : list dict :=
  default [] (Storage.load_data file !! "books").
End BookStorage.

Module UserStorage.
Definition save_users (users : list dict) : document := {["users" := users]}.
Definition load_users (file : option document) : list dict :=
  default [] (Storage.load_data file !! "users").
End UserStorage.

Module CheckoutStorage.
Definition save_checkouts (checkouts : list dict) : document :=
  {["checkouts" := checkouts]}.
Definition load_checkouts (file : option document) : list dict :=
  default [] (Storage.load_data file !! "checkouts").
End CheckoutStorage.

(** ** The managers *)

Module BookManager.
(** [next((book for book in self.books if book.item_id == isbn), None)] *)
Definition get_book_by_isbn (books : list Book.t) (isbn : string)
    : option (nat * Book.t) :=
  list_find (λ book, Book.item_id book = isbn) books.

(** [__init__]: the books of the storage file; [None] when a record makes
    [Book.from_dict] raise. *)
Definition init (file : option document) : option (list Book.t) :=
  mapM Book.from_dict (BookStorage.load_books file).

(** The document [_save_books] hands to the storage. *)
Definition _save_books (books : list Book.t) : document :=
  BookStorage.save_books (Book.to_dict <$> books).

Definition already_exists (isbn : string) : exn :=
  ValueError ("Book with ISBN " +:+ isbn +:+ " already exists").
Definition not_found (isbn : string) : exn :=
  ValueError ("Book with ISBN " +:+ isbn +:+ " not found").

Definition add_book (title author isbn : string) (books : list Book.t)
    : outcome unit * list Book.t :=
  match get_book_by_isbn books isbn with
  | Some _ => (Raises (already_exists isbn), books)
  | None => (Returns (), books ++ [Book.init title author isbn])
  end.

(** [if title: book.title = title], [if author: book.author = author] *)
Definition update_book (isbn : string) (title author : option string)
    (books : list Book.t) : outcome unit * list Book.t :=
  match get_book_by_isbn books isbn with
  | None => (Raises (not_found isbn), books)
  | Some (ib, _) =>
      let books :=
        match given title with
        | Some title => alter (Book.set_title title) ib books
        | None => books
        end in
      let books :=
        match given author with
        | Some author => alter (Book.set_author author) ib books
        | None => books
        end in
      (Returns (), books)
  end.

(** [self.books.remove(book)] compares by identity ([Book] defines no
    [__eq__]): it takes out the object the scan found. *)
Definition delete_book (isbn : string) (books : list Book.t)
    : outcome unit * list Book.t :=
  match get_book_by_isbn books isbn with
  | None => (Raises (not_found isbn), books)
  | Some (ib, _) => (Returns (), delete ib books)
  end.

Section search.
(** [str.lower], a function of Python's library. *)
Variable lower : string → string.

Definition matches (query : string) (book : Book.t) : bool :=
  str_contains query (lower (Book.title book))
  || str_contains query (lower (Book.author book))
  || str_contains query (lower (Book.item_id book)).

Definition search_books (query : string) (books : list Book.t) : list Book.t :=
  let query := lower query in
  filter (λ book, matches query book = true) books.
End search.
End BookManager.

Module UserManager.
Definition get_user_by_id (users : list User.t) (user_id : string)
    : option (nat * User.t) :=
  list_find (λ user, User.user_id user = user_id) users.

Definition init (file : option document) : option (list User.t) :=
  mapM User.from_dict (UserStorage.load_users file).

Definition _save_users (users : list User.t) : document :=
  UserStorage.save_users (User.to_dict <$> users).

Definition already_exists (user_id : string) : exn :=
  ValueError ("User with ID " +:+ user_id +:+ " already exists").
Definition not_found (user_id : string) : exn :=
  ValueError ("User with ID " +:+ user_id +:+ " not found").

Definition add_user (name user_id : string) (users : list User.t)
    : outcome unit * list User.t :=
  match get_user_by_id users user_id with
  | Some _ => (Raises (already_exists user_id), users)
  | None => (Returns (), users ++ [User.init name user_id])
  end.

Definition update_user (user_id : string) (name : option string)
    (users : list User.t) : outcome unit * list User.t :=
  match get_user_by_id users user_id with
  | None => (Raises (not_found user_id), users)
  | Some (iu, _) =>
      (Returns (),
       match given name with
       | Some name => alter (User.set_name name) iu users
       | None => users
       end)
  end.

Definition delete_user (user_id : string) (users : list User.t)
    : outcome unit * list User.t :=
  match get_user_by_id users user_id with
  | None => (Raises (not_found user_id), users)
  | Some (iu, _) => (Returns (), delete iu users)
  end.

Section search.
Variable lower : string → string.

Definition matches (query : string) (user : User.t) : bool :=
  str_contains query (lower (User.name user))
  || str_contains query (lower (User.user_id user)).

Definition search_users (query : string) (users : list User.t) : list User.t :=
  let query := lower query in
  filter (λ user, matches query user = true) users.
End search.
End UserManager.

Module CheckoutManager.
Section with_datetime.
Context {datetime : Type} `{!DateTime datetime}.

(** The memory reachable from a [CheckoutManager]: its own ledger and the
    lists of the two managers it holds. *)
Record state := mk {
  books : list Book.t;
  users : list User.t;
  checkouts : list (Checkout.t datetime);
}.

Definition M (A : Type) : Type := state → outcome A * state.

Definition ret {A} (a : A) : M A := λ s, (Returns a, s).
Definition raise {A} (e : exn) : M A := λ s, (Raises e, s).
Definition bind {A B} (m : M A) (k : A → M B) : M B :=
  λ s, match m s with
       | (Returns a, s') => k a s'
       | (Raises e, s') => (Raises e, s')
       end.
Definition gets {A} (f : state → A) : M A := λ s, (Returns (f s), s).
Definition modify (f : state → state) : M unit := λ s, (Returns (), f s).

Local Notation "x <- m ;; k" := (bind m (λ x, k))
  (at level 100, m at next level, right associativity).
Local Notation "m ;;; k" := (bind m (λ _, k))
  (at level 100, right associativity).

Definition on_books (f : list Book.t → list Book.t) (s : state) : state :=
  mk (f (books s)) (users s) (checkouts s).
Definition on_users (f : list User.t → list User.t) (s : state) : state :=
  mk (books s) (f (users s)) (checkouts s).
Definition on_checkouts
    (f : list (Checkout.t datetime) → list (Checkout.t datetime)) (s : state) : state :=
  mk (books s) (users s) (f (checkouts s)).

Definition user_not_found (user_id : string) : exn :=
  ValueError ("User with ID " +:+ user_id +:+ " not found").
Definition book_not_found (isbn : string) : exn :=
  ValueError ("Book with ISBN " +:+ isbn +:+ " not found").
Definition book_not_available (isbn : string) : exn :=
  ValueError ("Book with ISBN " +:+ isbn +:+ " is not available").
Definition no_active_checkout (user_id isbn : string) : exn :=
  ValueError ("No active checkout found for user " +:+ user_id +:+ " and book " +:+ isbn).

(** The condition of the scan in [return_book]. *)
Definition active_for (user_id isbn : string) (c : Checkout.t datetime) : Prop :=
  Checkout.user_id c = user_id ∧ Checkout.item_id c = isbn ∧ Checkout.is_open c.

Global Instance active_for_dec user_id isbn c : Decision (active_for user_id isbn c).
Proof. unfold active_for. apply _. Defined.

Definition checkout_book (now : datetime) (user_id isbn : string) : M unit :=
  user <- gets (λ s, UserManager.get_user_by_id (users s) user_id) ;;
  book <- gets (λ s, BookManager.get_book_by_isbn (books s) isbn) ;;
  match user, book with
  | None, _ => raise (user_not_found user_id)
  | Some _, None => raise (book_not_found isbn)
  | Some (iu, _), Some (ib, book) =>
      if negb (Book.is_available book)
      then raise (book_not_available isbn)
      else
        let checkout := Checkout.init now user_id isbn None None in
        modify (on_checkouts (λ l, l ++ [checkout])) ;;;
        modify (on_books (alter (Book.set_is_available false) ib)) ;;;
        modify (on_users (alter (λ u, User.borrow_item u isbn) iu)) ;;;
        ret ()
  end.

Definition return_book (now : datetime) (user_id isbn : string) : M unit :=
  user <- gets (λ s, UserManager.get_user_by_id (users s) user_id) ;;
  book <- gets (λ s, BookManager.get_book_by_isbn (books s) isbn) ;;
  match user, book with
  | None, _ => raise (user_not_found user_id)
  | Some _, None => raise (book_not_found isbn)
  | Some (iu, _), Some (ib, _) =>
      checkout <- gets (λ s, list_find (active_for user_id isbn) (checkouts s)) ;;
      match checkout with
      | None => raise (no_active_checkout user_id isbn)
      | Some (ic, _) =>
          modify (on_checkouts (alter (Checkout.return_item now) ic)) ;;;
          modify (on_books (alter (Book.set_is_available true) ib)) ;;;
          modify (on_users (alter (λ u, User.return_item u isbn) iu)) ;;;
          ret ()
      end
  end.

(** A request reaching the manager from the menu loop, with the clock
    reading of its turn.  The loop catches the exception of a failed
    request and goes on with the memory as the request left it. *)
Inductive request :=
| CheckoutBook (now : datetime) (user_id isbn : string)
| ReturnBook (now : datetime) (user_id isbn : string).

Definition exec (r : request) : M unit :=
  match r with
  | CheckoutBook now user_id isbn => checkout_book now user_id isbn
  | ReturnBook now user_id isbn => return_book now user_id isbn
  end.

Definition request_user_id (r : request) : string :=
  match r with CheckoutBook _ user_id _ | ReturnBook _ user_id _ => user_id end.

Definition request_isbn (r : request) : string :=
  match r with CheckoutBook _ _ isbn | ReturnBook _ _ isbn => isbn end.

Definition step (s : state) (r : request) : state := (exec r s).2.

Definition run (rs : list request) (s : state) : state := foldl step s rs.

(** *** State predicates of the specification *)

(** Number of open loans of an item in the ledger. *)
Definition open_count (isbn : string) (l : list (Checkout.t datetime)) : nat :=
  length (filter (λ c, Checkout.item_id c = isbn ∧ Checkout.is_open c) l).

(** Items a user has an open loan for, in ledger order. *)
Definition open_items (user_id : string) (l : list (Checkout.t datetime)) : list string :=
  Checkout.item_id <$>
    filter (λ c, Checkout.user_id c = user_id ∧ Checkout.is_open c) l.

(** Mutual exclusion, as the specification words it: a book is
    unavailable iff exactly one open loan names it. *)
Definition mutual_exclusion (s : state) : Prop :=
  Forall (λ b, Book.is_available b = false
               ↔ open_count (Book.item_id b) (checkouts s) = 1) (books s).

(** The flag of every book counts its open loans: none when available,
    one when not. *)
Definition flag_counts_loans (s : state) : Prop :=
  Forall (λ b, open_count (Book.item_id b) (checkouts s)
               = if Book.is_available b then 0 else 1) (books s).

Definition unique_isbns (s : state) : Prop :=
  NoDup (Book.item_id <$> books s).

Definition unique_user_ids (s : state) : Prop :=
  NoDup (User.user_id <$> users s).

(** Set consistency: a duplicate-free held list whose set of elements is
    the set of items the user has an open loan for. *)
Definition set_consistency (s : state) : Prop :=
  Forall (λ u, NoDup (User.borrowed_items u)
               ∧ list_to_set (User.borrowed_items u)
                 =@{gset string} list_to_set (open_items (User.user_id u) (checkouts s)))
         (users s).

Definition consistent (s : state) : Prop :=
  unique_isbns s ∧ flag_counts_loans s ∧ unique_user_ids s ∧ set_consistency s.

(** [__init__]: the ledger of the storage file; [now] is the clock that
    [Checkout.__init__] falls back on. *)
Definition init (now : datetime) (file : option document)
    : option (list (Checkout.t datetime)) :=
  mapM (Checkout.from_dict now) (CheckoutStorage.load_checkouts file).

Definition _save_checkouts (checkouts : list (Checkout.t datetime)) : document :=
  CheckoutStorage.save_checkouts (Checkout.to_dict <$> checkouts).
End with_datetime.
Global Arguments state : clear implicits.
Global Arguments request : clear implicits.
End CheckoutManager.

(** ** main.py: the menu commands that change the memory

    [LibraryManagementSystem] builds the two managers and hands them to the
    [CheckoutManager], so its memory is [CheckoutManager.state].  A command
    is a menu choice with the lines read by [input] (and the clock, for the
    two transactions); printing and logging are outside the embedding. *)
Module LibraryManagementSystem.
Section with_datetime.
Context {datetime : Type} `{!DateTime datetime}.
Import CheckoutManager.

Local Abbreviation state := (CheckoutManager.state datetime).
Local Abbreviation M := (@CheckoutManager.M datetime).

Definition on_book_manager (m : list Book.t → outcome unit * list Book.t)
    : M unit :=
  λ s, ((m (books s)).1, mk (m (books s)).2 (users s) (checkouts s)).

Definition on_user_manager (m : list User.t → outcome unit * list User.t)
    : M unit :=
  λ s, ((m (users s)).1, mk (books s) (m (users s)).2 (checkouts s)).

(** [x or None] on a line read by [input]. *)
Definition or_None (line : string) : option string :=
  if bool_decide (line = "") then None else Some line.

Inductive command :=
| AddBook (title author isbn : string)
| UpdateBook (isbn title author : string)
| DeleteBook (isbn : string)
| AddUser (name user_id : string)
| UpdateUser (user_id name : string)
| DeleteUser (user_id : string)
| CheckoutBook (now : datetime) (user_id isbn : string)
| ReturnBook (now : datetime) (user_id isbn : string).

Definition exec (c : command) : M unit :=
  match c with
  | AddBook title author isbn =>
      on_book_manager (BookManager.add_book title author isbn)
  | UpdateBook isbn title author =>
      on_book_manager (BookManager.update_book isbn (or_None title) (or_None author))
  | DeleteBook isbn => on_book_manager (BookManager.delete_book isbn)
  | AddUser name user_id => on_user_manager (UserManager.add_user name user_id)
  | UpdateUser user_id name =>
      on_user_manager (UserManager.update_user user_id (Some name))
  | DeleteUser user_id => on_user_manager (UserManager.delete_user user_id)
  | CheckoutBook now user_id isbn => checkout_book now user_id isbn
  | ReturnBook now user_id isbn => return_book now user_id isbn
  end.

(** [process_choice] catches the exception of a failed command; the loop of
    [run] goes on with the memory as the command left it. *)
Definition process_choice (s : state) (c : command) : state := (exec c s).2.

Definition run (cs : list command) (s : state) : state := foldl process_choice s cs.

(** Held lists without duplicates. *)
Definition held_lists_duplicate_free (s : state) : Prop :=
  Forall (λ u, NoDup (User.borrowed_items u)) (users s).
End with_datetime.
Global Arguments command : clear implicits.
End LibraryManagementSystem.

(** ** Naive datetimes

    A model of the naive values of Python's [datetime] (what
    [datetime.now()] returns): calendar fields within their ranges,
    [isoformat] as [YYYY-MM-DDTHH:MM:SS] followed by [.ffffff] when the
    microsecond is not zero, and [fromisoformat] on those renderings. *)
Module Naive.
Local Open Scope N_scope.

Record fields := mk_fields {
  year : N; month : N; day : N;
  hour : N; minute : N; second : N; microsecond : N;
}.

Definition is_leap (y : N) : bool :=
  (y mod 4 =? 0) && (negb (y mod 100 =? 0) || (y mod 400 =? 0)).

Definition days_in_month (y m : N) : N :=
  if m =? 2 then (if is_leap y then 29 else 28)
  else if (m =? 4) || (m =? 6) || (m =? 9) || (m =? 11) then 30
  else 31.

Definition valid (f : fields) : bool :=
  (1 <=? year f) && (year f <=? 9999) &&
  (1 <=? month f) && (month f <=? 12) &&
  (1 <=? day f) && (day f <=? days_in_month (year f) (month f)) &&
  (hour f <? 24) && (minute f <? 60) && (second f <? 60) &&
  (microsecond f <? 1000000).

Record t := mk { get : fields; get_valid : valid get = true }.

Definition digit_char (d : N) : ascii := ascii_of_N (48 + d).

Definition digit_val (c : ascii) : option N :=
  let n := N_of_ascii c in
  if (48 <=? n) && (n <=? 57) then Some (n - 48) else None.

(** [%0wd]: [w] decimal digits, most significant first. *)
Fixpoint zpad (w : nat) (n : N) : string :=
  match w with
  | O => ""
  | S w' => String (digit_char ((n / 10 ^ N.of_nat w') mod 10)) (zpad w' n)
  end.

Fixpoint read_digits (w : nat) (acc : N) (s : string) : option (N * string) :=
  match w with
  | O => Some (acc, s)
  | S w' =>
      match s with
      | String c s' => d ← digit_val c; read_digits w' (10 * acc + d) s'
      | EmptyString => None
      end
  end.

Definition expect (c : ascii) (s : string) : option string :=
  match s with
  | String c' s' => if decide (c' = c) then Some s' else None
  | EmptyString => None
  end.

Definition print (f : fields) : string :=
  zpad 4 (year f) +:+ "-" +:+ zpad 2 (month f) +:+ "-" +:+ zpad 2 (day f) +:+
  "T" +:+ zpad 2 (hour f) +:+ ":" +:+ zpad 2 (minute f) +:+ ":" +:+
  zpad 2 (second f) +:+
  (if microsecond f =? 0 then "" else "." +:+ zpad 6 (microsecond f)).

Definition parse (s : string) : option fields :=
  '(y, s) ← read_digits 4 0 s; s ← expect "-" s;
  '(m, s) ← read_digits 2 0 s; s ← expect "-" s;
  '(d, s) ← read_digits 2 0 s; s ← expect "T" s;
  '(hh, s) ← read_digits 2 0 s; s ← expect ":" s;
  '(mm, s) ← read_digits 2 0 s; s ← expect ":" s;
  '(ss, s) ← read_digits 2 0 s;
  match s with
  | EmptyString => Some (mk_fields y m d hh mm ss 0)
  | _ =>
      s ← expect "." s;
      '(us, s) ← read_digits 6 0 s;
      if decide (s = "") then Some (mk_fields y m d hh mm ss us) else None
  end.

(** The constructor of the class: fields out of range are refused
    ([ValueError]). *)
Definition check_fields (f : fields) (b : bool) : valid f = b → option t :=
  match b with
  | true => λ ok, Some (mk f ok)
  | false => λ _, None
  end.

Definition of_fields (f : fields) : option t := check_fields f (valid f) eq_refl.

Definition isoformat (d : t) : string := print (get d).
Definition fromisoformat (s : string) : option t := parse s ≫= of_fields.

(** The day after; the last representable day has none (Python raises
    [OverflowError] there) and is kept. *)
Definition next_day (f : fields) : fields :=
  if day f <? days_in_month (year f) (month f)
  then mk_fields (year f) (month f) (day f + 1) (hour f) (minute f) (second f) (microsecond f)
  else if month f <? 12
  then mk_fields (year f) (month f + 1) 1 (hour f) (minute f) (second f) (microsecond f)
  else if year f <? 9999
  then mk_fields (year f + 1) 1 1 (hour f) (minute f) (second f) (microsecond f)
  else f.

(** [d + timedelta(days=n)]. *)
Definition plus_days (d : t) (n : nat) : t :=
  default d (of_fields (Nat.iter n next_day (get d))).
End Naive.

(** * Properties *)

(** ** The naive datetimes implement the [DateTime] interface *)
Module NaiveFacts.
Import Naive.
Local Open Scope N_scope.

Lemma digit_val_char d : d < 10 → digit_val (digit_char d) = Some d.
Proof.
  intros Hd. unfold digit_val, digit_char.
  rewrite N_ascii_embedding by lia.
  replace ((48 <=? 48 + d) && (48 + d <=? 57)) with true.
  - f_equal. lia.
  - symmetry. apply andb_true_iff. split; apply N.leb_le; lia.
Qed.

Lemma string_app_cons c s1 s2 : String c s1 +:+ s2 = String c (s1 +:+ s2).
Proof. reflexivity. Qed.

Lemma string_app_nil s : "" +:+ s = s.
Proof. reflexivity. Qed.

Lemma string_app_nil_r s : s +:+ "" = s.
Proof. induction s as [|c s IH]; [done|]. by rewrite string_app_cons, IH. Qed.

Lemma read_digits_zpad w n acc rest :
  read_digits w acc (zpad w n +:+ rest)
  = Some (acc * 10 ^ N.of_nat w + n mod 10 ^ N.of_nat w, rest).
Proof.
  revert acc. induction w as [|w IH]; intros acc.
  - cbn [read_digits zpad]. rewrite string_app_nil. f_equal. f_equal.
    change (N.of_nat 0) with 0. rewrite N.pow_0_r, N.mod_1_r. lia.
  - cbn [read_digits zpad]. rewrite string_app_cons.
    rewrite digit_val_char by (apply N.mod_lt; lia).
    cbn [mbind option_bind]. rewrite IH. f_equal. f_equal.
    rewrite Nat2N.inj_succ, N.pow_succ_r'.
    rewrite (N.mul_comm 10 (10 ^ N.of_nat w)).
    rewrite N.Div0.mod_mul_r. lia.
Qed.

Lemma read_digits_small w n rest :
  n < 10 ^ N.of_nat w →
  read_digits w 0 (zpad w n +:+ rest) = Some (n, rest).
Proof.
  intros Hn. rewrite read_digits_zpad, N.mod_small by done. done.
Qed.

Lemma days_in_month_bounds y m : 28 ≤ days_in_month y m ≤ 31.
Proof.
  unfold days_in_month.
  destruct (m =? 2); [destruct (is_leap y); lia|].
  destruct ((m =? 4) || (m =? 6) || (m =? 9) || (m =? 11)); lia.
Qed.

Lemma valid_spec f :
  valid f = true ↔
  (1 ≤ year f ≤ 9999) ∧ (1 ≤ month f ≤ 12) ∧
  (1 ≤ day f ≤ days_in_month (year f) (month f)) ∧
  hour f < 24 ∧ minute f < 60 ∧ second f < 60 ∧ microsecond f < 1000000.
Proof.
  unfold valid. rewrite !andb_true_iff, !N.leb_le, !N.ltb_lt. tauto.
Qed.

Lemma parse_print f : valid f = true → parse (print f) = Some f.
Proof.
  intros (Hy & Hm & Hd & Hh & Hmi & Hs & Hus)%valid_spec.
  pose proof (days_in_month_bounds (year f) (month f)) as Hdim.
  destruct f as [y m d hh mm ss us]; cbn [year month day hour minute second microsecond] in *.
  unfold parse, print; cbn [year month day hour minute second microsecond].
  rewrite (read_digits_small 4) by (change (10 ^ N.of_nat 4) with 10000; lia).
  cbn [mbind option_bind]. rewrite string_app_cons, string_app_nil. cbn [expect].
  rewrite decide_True by done. cbn [mbind option_bind].
  do 2 (rewrite (read_digits_small 2) by (change (10 ^ N.of_nat 2) with 100; lia);
    cbn [mbind option_bind]; rewrite string_app_cons, string_app_nil; cbn [expect];
    rewrite decide_True by done; cbn [mbind option_bind]).
  do 2 (rewrite (read_digits_small 2) by (change (10 ^ N.of_nat 2) with 100; lia);
    cbn [mbind option_bind]; rewrite string_app_cons, string_app_nil; cbn [expect];
    rewrite decide_True by done; cbn [mbind option_bind]).
  rewrite (read_digits_small 2) by (change (10 ^ N.of_nat 2) with 100; lia).
  cbn [mbind option_bind].
  destruct (us =? 0) eqn:Hz.
  - apply N.eqb_eq in Hz as ->. done.
  - rewrite string_app_cons, string_app_nil. cbn [expect]. rewrite decide_True by done.
    cbn [mbind option_bind].
    rewrite <- (string_app_nil_r (zpad 6 us)).
    rewrite (read_digits_small 6) by (change (10 ^ N.of_nat 6) with 1000000; lia).
    cbn [mbind option_bind]. by rewrite decide_True.
Qed.

Lemma print_nonempty f : print f ≠ "".
Proof. unfold print. cbn [zpad]. rewrite string_app_cons. done. Qed.

Lemma next_day_valid f : valid f = true → valid (next_day f) = true.
Proof.
  rewrite !valid_spec. intros (Hy & Hm & Hd & Hrest).
  unfold next_day.
  destruct (day f <? _) eqn:E1; [apply N.ltb_lt in E1; cbn; split_and!; try tauto; lia|].
  destruct (month f <? 12) eqn:E2.
  { apply N.ltb_lt in E2. cbn.
    pose proof (days_in_month_bounds (year f) (month f + 1)).
    split_and!; try tauto; lia. }
  destruct (year f <? 9999) eqn:E3; [|tauto].
  apply N.ltb_lt in E3. cbn.
  pose proof (days_in_month_bounds (year f + 1) 1).
  split_and!; try tauto; lia.
Qed.

Lemma eq_of_fields (d1 d2 : t) : get d1 = get d2 → d1 = d2.
Proof.
  destruct d1 as [f1 H1], d2 as [f2 H2]; cbn. intros ->.
  f_equal. apply proof_irrel.
Qed.

Lemma check_fields_true f b (e : valid f = b) :
  b = true → ∃ ok, check_fields f b e = Some (mk f ok).
Proof. intros ->. cbn. eauto. Qed.

Lemma of_fields_valid f : valid f = true → ∃ ok, of_fields f = Some (mk f ok).
Proof. intros Hf. by apply check_fields_true. Qed.

Lemma naive_fromisoformat_isoformat d :
  Naive.fromisoformat (Naive.isoformat d) = Some d.
Proof.
  unfold Naive.fromisoformat, Naive.isoformat.
  rewrite parse_print by apply get_valid. cbn [mbind option_bind].
  destruct (of_fields_valid (get d) (get_valid d)) as [ok ->].
  f_equal. by apply eq_of_fields.
Qed.

Lemma plus_days_fields d n :
  get (Naive.plus_days d n) = Nat.iter n next_day (get d).
Proof.
  unfold Naive.plus_days.
  assert (valid (Nat.iter n next_day (get d)) = true) as Hv.
  { induction n as [|n IH]; [apply get_valid|]. cbn. by apply next_day_valid. }
  by destruct (of_fields_valid _ Hv) as [ok ->].
Qed.
End NaiveFacts.

Definition naive_datetime : DateTime Naive.t := {|
  isoformat := Naive.isoformat;
  fromisoformat := Naive.fromisoformat;
  plus_days := Naive.plus_days;
  fromisoformat_isoformat := NaiveFacts.naive_fromisoformat_isoformat;
  isoformat_nonempty d := NaiveFacts.print_nonempty (Naive.get d);
|}.



(** ** Scans and in-place updates *)
Section scans.
Context {A : Type} (P : A → Prop) `{!∀ x, Decision (P x)}.

(** A successful [next(...)] scan splits the list around its result. *)
Lemma list_find_split (l : list A) i x :
  list_find P l = Some (i, x) →
  ∃ l1 l2, l = l1 ++ x :: l2 ∧ length l1 = i ∧ P x ∧ Forall (λ y, ¬ P y) l1.
Proof.
  intros (Hi & HP & Hfirst)%list_find_Some.
  exists (take i l), (drop (S i) l). split_and!.
  - by rewrite take_drop_middle.
  - apply length_take_le. apply lookup_lt_Some in Hi. lia.
  - done.
  - apply Forall_lookup. intros j y Hj.
    pose proof (lookup_lt_Some _ _ _ Hj) as Hlt. rewrite length_take in Hlt.
    rewrite lookup_take_lt in Hj by lia. apply (Hfirst j); [done|lia].
Qed.

Lemma list_find_middle (l1 l2 : list A) x :
  P x → Forall (λ y, ¬ P y) l1 →
  list_find P (l1 ++ x :: l2) = Some (length l1, x).
Proof.
  intros HP Hl1. apply list_find_Some. split_and!.
  - by rewrite list_lookup_middle.
  - done.
  - intros j y Hj Hlt. rewrite lookup_app_l in Hj by done.
    by eapply Forall_lookup_1 in Hl1.
Qed.

Lemma alter_middle (f : A → A) (l1 l2 : list A) x :
  alter f (length l1) (l1 ++ x :: l2) = l1 ++ f x :: l2.
Proof.
  replace (length l1) with (length l1 + 0) by lia.
  by rewrite alter_app_r.
Qed.

Lemma insert_middle (l1 l2 : list A) x y :
  <[length l1 := y]> (l1 ++ x :: l2) = l1 ++ y :: l2.
Proof. by rewrite list_insert_alter, alter_middle. Qed.

Lemma list_find_exists (l : list A) :
  (∃ x, x ∈ l ∧ P x) → ∃ i x, list_find P l = Some (i, x).
Proof.
  intros (x & Hx & HP).
  destruct (list_find_elem_of P l x Hx HP) as [[i y] ?]. eauto.
Qed.
End scans.

(** ** The two transactions, as equations on the memory *)
Section workflow.
Context {datetime : Type} `{!DateTime datetime}.
Import CheckoutManager.

Implicit Types (s : state datetime) (now : datetime) (user_id isbn : string).

Lemma checkout_book_eq now user_id isbn s :
  checkout_book now user_id isbn s =
    match UserManager.get_user_by_id (users s) user_id,
          BookManager.get_book_by_isbn (books s) isbn with
    | None, _ => (Raises (user_not_found user_id), s)
    | Some _, None => (Raises (book_not_found isbn), s)
    | Some (iu, _), Some (ib, book) =>
        if Book.is_available book
        then (Returns (),
              mk (alter (Book.set_is_available false) ib (books s))
                 (alter (λ u, User.borrow_item u isbn) iu (users s))
                 (checkouts s ++ [Checkout.init now user_id isbn None None]))
        else (Raises (book_not_available isbn), s)
    end.
Proof.
  unfold checkout_book, bind, gets. cbn.
  destruct (UserManager.get_user_by_id (users s) user_id) as [[iu u]|],
           (BookManager.get_book_by_isbn (books s) isbn) as [[ib b]|]; try done.
  by destruct (Book.is_available b).
Qed.

Lemma return_book_eq now user_id isbn s :
  return_book now user_id isbn s =
    match UserManager.get_user_by_id (users s) user_id,
          BookManager.get_book_by_isbn (books s) isbn with
    | None, _ => (Raises (user_not_found user_id), s)
    | Some _, None => (Raises (book_not_found isbn), s)
    | Some (iu, _), Some (ib, _) =>
        match list_find (active_for user_id isbn) (checkouts s) with
        | None => (Raises (no_active_checkout user_id isbn), s)
        | Some (ic, _) =>
            (Returns (),
             mk (alter (Book.set_is_available true) ib (books s))
                (alter (λ u, User.return_item u isbn) iu (users s))
                (alter (Checkout.return_item now) ic (checkouts s)))
        end
    end.
Proof.
  unfold return_book, bind, gets. cbn.
  destruct (UserManager.get_user_by_id (users s) user_id) as [[iu u]|],
           (BookManager.get_book_by_isbn (books s) isbn) as [[ib b]|]; try done.
  by destruct (list_find (active_for user_id isbn) (checkouts s)) as [[ic c]|].
Qed.

(** Re-reading an object after an attribute store through its
    reference, when the store keeps the key the scan looks at. *)
Lemma get_book_after_store (bs : list Book.t) isbn ib b v :
  BookManager.get_book_by_isbn bs isbn = Some (ib, b) →
  alter (Book.set_is_available v) ib bs = <[ib := Book.set_is_available v b]> bs
  ∧ BookManager.get_book_by_isbn (alter (Book.set_is_available v) ib bs) isbn
    = Some (ib, Book.set_is_available v b).
Proof.
  intros (l1 & l2 & -> & <- & Hb & Hl1)%list_find_split.
  rewrite alter_middle.
  rewrite insert_middle. split; [done|]. by apply list_find_middle.
Qed.

Lemma get_user_after_store (us : list User.t) user_id iu u (f : User.t → User.t) :
  (∀ u', User.user_id (f u') = User.user_id u') →
  UserManager.get_user_by_id us user_id = Some (iu, u) →
  alter f iu us = <[iu := f u]> us
  ∧ UserManager.get_user_by_id (alter f iu us) user_id = Some (iu, f u).
Proof.
  intros Hf (l1 & l2 & -> & <- & Hu & Hl1)%list_find_split.
  rewrite alter_middle.
  rewrite insert_middle. split; [done|]. apply list_find_middle; [|done]. by rewrite Hf.
Qed.

Lemma borrow_item_user_id u x : User.user_id (User.borrow_item u x) = User.user_id u.
Proof. unfold User.borrow_item. by case_decide. Qed.

Lemma return_item_user_id u x : User.user_id (User.return_item u x) = User.user_id u.
Proof. unfold User.return_item. by case_decide. Qed.

Lemma borrow_item_elem u x : x ∈ User.borrowed_items (User.borrow_item u x).
Proof.
  unfold User.borrow_item. case_decide as Hx; cbn.
  - set_solver.
  - done.
Qed.

Lemma list_remove_NoDup x (l : list string) :
  NoDup l → NoDup (list_remove x l) ∧ ∀ y, y ∈ list_remove x l ↔ y ∈ l ∧ y ≠ x.
Proof.
  induction 1 as [|z l Hz Hl IH]; cbn.
  - split; [constructor|]. set_solver.
  - case_decide as Hzx.
    + subst z. split; [done|]. intros y. set_solver.
    + destruct IH as [IH1 IH2]. split.
      * constructor; [|done]. rewrite IH2. tauto.
      * intros y. rewrite !elem_of_cons, IH2. naive_solver.
Qed.

Lemma list_remove_absent x (l : list string) : x ∉ l → list_remove x l = l.
Proof.
  induction l as [|z l IH]; [done|]. cbn. intros [Hzx Hl]%not_elem_of_cons.
  rewrite decide_False by done. by rewrite IH.
Qed.

Lemma return_item_borrowed u x :
  User.borrowed_items (User.return_item u x) = list_remove x (User.borrowed_items u).
Proof.
  unfold User.return_item. case_decide as Hx; [done|].
  by rewrite list_remove_absent.
Qed.

(** C3. Checkout success postcondition: when the user id and the ISBN
    resolve and the book is available, [checkout_book] returns normally;
    the ledger is the old one followed by exactly one new open loan of
    that user and item, checked out at the clock reading and due 14 days
    later; the resolved book is the same record with [is_available]
    false; the resolved user is the same record after [borrow_item], so
    the ISBN is in the held list. *)
Theorem checkout_book_success now user_id isbn s iu u ib b :
  UserManager.get_user_by_id (users s) user_id = Some (iu, u) →
  BookManager.get_book_by_isbn (books s) isbn = Some (ib, b) →
  Book.is_available b = true →
  ∃ s',
    checkout_book now user_id isbn s = (Returns (), s')
    ∧ checkouts s'
      = checkouts s ++ [Checkout.mk user_id isbn now (plus_days now 14) None]
    ∧ books s' = <[ib := Book.mk (Book.title b) (Book.author b) (Book.item_id b) false]> (books s)
    ∧ BookManager.get_book_by_isbn (books s') isbn
      = Some (ib, Book.mk (Book.title b) (Book.author b) (Book.item_id b) false)
    ∧ users s' = <[iu := User.borrow_item u isbn]> (users s)
    ∧ UserManager.get_user_by_id (users s') user_id = Some (iu, User.borrow_item u isbn)
    ∧ isbn ∈ User.borrowed_items (User.borrow_item u isbn).
Proof.
  intros Hu Hb Hav. eexists. rewrite checkout_book_eq, Hu, Hb, Hav.
  split; [done|]. cbn [checkouts books users].
  destruct (get_book_after_store _ _ _ _ false Hb) as [-> ->].
  destruct (get_user_after_store _ _ _ _ (λ u, User.borrow_item u isbn)
              (λ u', borrow_item_user_id u' isbn) Hu) as [-> ->].
  split_and!; try done. apply borrow_item_elem.
Qed.

(** C4. Checkout failure modes and atomicity: an absent user id raises
    the user-not-found error; a resolved user with an absent ISBN raises
    the book-not-found error; both resolved with the book unavailable
    raises the not-available error; and whenever [checkout_book] raises,
    the memory it leaves (ledger, every book, every user) is the memory it
    started from. *)
Theorem checkout_book_failure now user_id isbn s :
  (UserManager.get_user_by_id (users s) user_id = None →
     checkout_book now user_id isbn s = (Raises (user_not_found user_id), s))
  ∧ (is_Some (UserManager.get_user_by_id (users s) user_id) →
     BookManager.get_book_by_isbn (books s) isbn = None →
     checkout_book now user_id isbn s = (Raises (book_not_found isbn), s))
  ∧ (∀ ib b,
     is_Some (UserManager.get_user_by_id (users s) user_id) →
     BookManager.get_book_by_isbn (books s) isbn = Some (ib, b) →
     Book.is_available b = false →
     checkout_book now user_id isbn s = (Raises (book_not_available isbn), s))
  ∧ (∀ e, (checkout_book now user_id isbn s).1 = Raises e →
     (checkout_book now user_id isbn s).2 = s
     ∧ checkouts (checkout_book now user_id isbn s).2 = checkouts s).
Proof.
  rewrite checkout_book_eq. split_and!.
  - by intros ->.
  - by intros [[iu u] ->] ->.
  - by intros ib b [[iu u] ->] -> ->.
  - intros e.
    destruct (UserManager.get_user_by_id (users s) user_id) as [[iu u]|],
             (BookManager.get_book_by_isbn (books s) isbn) as [[ib b]|]; try done.
    by destruct (Book.is_available b).
Qed.

(** C5. Return success postcondition with tie-break: when the user id
    and the ISBN resolve and some ledger entry of that user and item is
    open, [return_book] returns normally; the entry it closes is the first
    such entry in ledger order, which keeps its place and its other fields
    and gets the clock reading as return date; the resolved book is the
    same record with [is_available] true; the resolved user is the same
    record after [return_item], whose held list is the old one without the
    first occurrence of the ISBN (so without the ISBN when the list had no
    duplicates). *)
Theorem return_book_success now user_id isbn s iu u ib b :
  UserManager.get_user_by_id (users s) user_id = Some (iu, u) →
  BookManager.get_book_by_isbn (books s) isbn = Some (ib, b) →
  (∃ c, c ∈ checkouts s ∧ active_for user_id isbn c) →
  ∃ s' ic c,
    return_book now user_id isbn s = (Returns (), s')
    ∧ checkouts s !! ic = Some c
    ∧ active_for user_id isbn c
    ∧ (∀ j c', j < ic → checkouts s !! j = Some c' → ¬ active_for user_id isbn c')
    ∧ checkouts s'
      = <[ic := Checkout.mk (Checkout.user_id c) (Checkout.item_id c)
                  (Checkout.checkout_date c) (Checkout.due_date c) (Some now)]>
          (checkouts s)
    ∧ books s' = <[ib := Book.mk (Book.title b) (Book.author b) (Book.item_id b) true]> (books s)
    ∧ BookManager.get_book_by_isbn (books s') isbn
      = Some (ib, Book.mk (Book.title b) (Book.author b) (Book.item_id b) true)
    ∧ users s' = <[iu := User.return_item u isbn]> (users s)
    ∧ UserManager.get_user_by_id (users s') user_id = Some (iu, User.return_item u isbn)
    ∧ User.borrowed_items (User.return_item u isbn)
      = list_remove isbn (User.borrowed_items u)
    ∧ (NoDup (User.borrowed_items u) →
       isbn ∉ User.borrowed_items (User.return_item u isbn)).
Proof.
  intros Hu Hb Hex.
  apply (list_find_exists (active_for user_id isbn)) in Hex as (ic & c & Hc).
  exists (mk (alter (Book.set_is_available true) ib (books s))
             (alter (λ u, User.return_item u isbn) iu (users s))
             (alter (Checkout.return_item now) ic (checkouts s))), ic, c.
  rewrite return_book_eq, Hu, Hb, Hc. cbn [checkouts books users].
  destruct (get_book_after_store _ _ _ _ true Hb) as [-> ->].
  destruct (get_user_after_store _ _ _ _ (λ u, User.return_item u isbn)
              (λ u', return_item_user_id u' isbn) Hu) as [-> ->].
  pose proof Hc as (Hic & Hact & Hfirst)%list_find_Some.
  apply list_find_split in Hc as (l1 & l2 & Hl & <- & _ & _).
  split_and!; try done.
  - intros j c' Hj Hc'. by apply (Hfirst j).
  - by rewrite Hl, alter_middle, insert_middle.
  - apply return_item_borrowed.
  - intros Hnd. rewrite return_item_borrowed.
    destruct (list_remove_NoDup isbn _ Hnd) as [_ Hin]. rewrite Hin. tauto.
Qed.

(** The second half of C6 needs the number of matching open entries. *)
Lemma active_after_close now user_id isbn (l : list (Checkout.t datetime)) ic c :
  list_find (active_for user_id isbn) l = Some (ic, c) →
  length (filter (active_for user_id isbn) (alter (Checkout.return_item now) ic l))
  = pred (length (filter (active_for user_id isbn) l)).
Proof.
  intros (l1 & l2 & -> & <- & Hact & Hl1)%list_find_split.
  rewrite alter_middle, !filter_app, !filter_cons.
  rewrite decide_False by (intros (_ & _ & Hopen); discriminate Hopen).
  rewrite decide_True by done.
  rewrite !length_app. cbn. lia.
Qed.

(** What a transaction leaves behind: the memory it found, or the memory
    with the three objects it resolved updated in place. *)
Lemma checkout_book_effect now user_id isbn s :
  (checkout_book now user_id isbn s).2 = s
  ∨ ∃ bs1 b bs2 us1 u us2,
      books s = bs1 ++ b :: bs2
      ∧ Book.item_id b = isbn
      ∧ Forall (λ b', Book.item_id b' ≠ isbn) bs1
      ∧ Book.is_available b = true
      ∧ users s = us1 ++ u :: us2
      ∧ User.user_id u = user_id
      ∧ Forall (λ u', User.user_id u' ≠ user_id) us1
      ∧ (checkout_book now user_id isbn s).2
        = mk (bs1 ++ Book.set_is_available false b :: bs2)
             (us1 ++ User.borrow_item u isbn :: us2)
             (checkouts s ++ [Checkout.init now user_id isbn None None]).
Proof.
  rewrite checkout_book_eq.
  destruct (UserManager.get_user_by_id (users s) user_id) as [[iu u]|] eqn:Hu;
    [|by left].
  destruct (BookManager.get_book_by_isbn (books s) isbn) as [[ib b]|] eqn:Hb;
    [|by left].
  destruct (Book.is_available b) eqn:Hav; [|by left].
  right.
  apply list_find_split in Hu as (us1 & us2 & Hus & <- & Hu & Hus1).
  apply list_find_split in Hb as (bs1 & bs2 & Hbs & <- & Hb & Hbs1).
  exists bs1, b, bs2, us1, u, us2. split_and!; try done.
  cbn [snd]. by rewrite Hus, Hbs, !alter_middle.
Qed.

Lemma return_book_effect now user_id isbn s :
  (return_book now user_id isbn s).2 = s
  ∨ ∃ bs1 b bs2 us1 u us2 cs1 c cs2,
      books s = bs1 ++ b :: bs2
      ∧ Book.item_id b = isbn
      ∧ Forall (λ b', Book.item_id b' ≠ isbn) bs1
      ∧ users s = us1 ++ u :: us2
      ∧ User.user_id u = user_id
      ∧ Forall (λ u', User.user_id u' ≠ user_id) us1
      ∧ checkouts s = cs1 ++ c :: cs2
      ∧ active_for user_id isbn c
      ∧ Forall (λ c', ¬ active_for user_id isbn c') cs1
      ∧ (return_book now user_id isbn s).2
        = mk (bs1 ++ Book.set_is_available true b :: bs2)
             (us1 ++ User.return_item u isbn :: us2)
             (cs1 ++ Checkout.return_item now c :: cs2).
Proof.
  rewrite return_book_eq.
  destruct (UserManager.get_user_by_id (users s) user_id) as [[iu u]|] eqn:Hu;
    [|by left].
  destruct (BookManager.get_book_by_isbn (books s) isbn) as [[ib b]|] eqn:Hb;
    [|by left].
  destruct (list_find (active_for user_id isbn) (checkouts s)) as [[ic c]|] eqn:Hc;
    [|by left].
  right.
  apply list_find_split in Hu as (us1 & us2 & Hus & <- & Hu & Hus1).
  apply list_find_split in Hb as (bs1 & bs2 & Hbs & <- & Hb & Hbs1).
  apply list_find_split in Hc as (cs1 & cs2 & Hcs & <- & Hc & Hcs1).
  exists bs1, b, bs2, us1, u, us2, cs1, c, cs2. split_and!; try done.
  cbn [snd]. by rewrite Hus, Hbs, Hcs, !alter_middle.
Qed.

(** Positions outside the updated one keep their object. *)
Lemma lookup_middle_other {A} (l1 l2 : list A) x y i z :
  (l1 ++ x :: l2) !! i = Some z → z ≠ x → (l1 ++ y :: l2) !! i = Some z.
Proof.
  intros Hi Hz. destruct (decide (i = length l1)) as [->|Hne].
  - rewrite list_lookup_middle in Hi by done. congruence.
  - rewrite <- (insert_middle l1 l2 x y).
    by rewrite list_lookup_insert_ne.
Qed.

(** C7. Append-only ledger with frame condition: a [checkout_book] call
    leaves the ledger as it was or appends one entry to it; a
    [return_book] call leaves it as it was or sets the return date of one
    entry, open until then, in place; so no entry is ever removed, and
    every entry keeps its place, user id, item id, checkout date and due
    date.  Every book with another ISBN than the call's and every user
    with another id than the call's is the same object as before. *)
Theorem ledger_append_only_with_frame (r : request datetime) s :
  match r with
  | CheckoutBook now user_id isbn =>
      checkouts (step s r) = checkouts s
      ∨ ∃ c, checkouts (step s r) = checkouts s ++ [c]
  | ReturnBook now user_id isbn =>
      checkouts (step s r) = checkouts s
      ∨ ∃ ic c, checkouts s !! ic = Some c
                ∧ Checkout.return_date c = None
                ∧ checkouts (step s r)
                  = <[ic := Checkout.mk (Checkout.user_id c) (Checkout.item_id c)
                              (Checkout.checkout_date c) (Checkout.due_date c)
                              (Some now)]> (checkouts s)
  end
  ∧ length (checkouts s) ≤ length (checkouts (step s r))
  ∧ (∀ i c, checkouts s !! i = Some c →
       ∃ c', checkouts (step s r) !! i = Some c'
             ∧ Checkout.user_id c' = Checkout.user_id c
             ∧ Checkout.item_id c' = Checkout.item_id c
             ∧ Checkout.checkout_date c' = Checkout.checkout_date c
             ∧ Checkout.due_date c' = Checkout.due_date c)
  ∧ length (books (step s r)) = length (books s)
  ∧ (∀ i b, books s !! i = Some b → Book.item_id b ≠ request_isbn r →
       books (step s r) !! i = Some b)
  ∧ length (users (step s r)) = length (users s)
  ∧ (∀ i u, users s !! i = Some u → User.user_id u ≠ request_user_id r →
       users (step s r) !! i = Some u).
Proof.
  unfold step. destruct r as [now user_id isbn|now user_id isbn]; cbn [exec].
  - destruct (checkout_book_effect now user_id isbn s)
      as [->|(bs1 & b & bs2 & us1 & u & us2 & Hbs & Hb & _ & _ & Hus & Hu & _ & ->)].
    { split_and!; eauto 10. }
    cbn [checkouts books users request_isbn request_user_id]. split_and!.
    + right. eauto.
    + rewrite length_app. lia.
    + intros i c Hi. exists c. split; [|done]. by apply lookup_app_l_Some.
    + rewrite Hbs, !length_app. done.
    + intros i b' Hi Hne. rewrite Hbs in Hi.
      eapply lookup_middle_other; [done|congruence].
    + rewrite Hus, !length_app. done.
    + intros i u' Hi Hne. rewrite Hus in Hi.
      eapply lookup_middle_other; [done|congruence].
  - destruct (return_book_effect now user_id isbn s)
      as [->|(bs1 & b & bs2 & us1 & u & us2 & cs1 & c & cs2
              & Hbs & Hb & _ & Hus & Hu & _ & Hcs & (_ & _ & Hopen) & _ & ->)].
    { split_and!; eauto 10. }
    cbn [checkouts books users request_isbn request_user_id]. split_and!.
    + right. exists (length cs1), c. rewrite Hcs. split_and!.
      * by rewrite list_lookup_middle.
      * done.
      * by rewrite insert_middle.
    + rewrite Hcs, !length_app. done.
    + intros i c' Hi. rewrite Hcs in Hi.
      destruct (decide (i = length cs1)) as [->|Hne].
      * rewrite list_lookup_middle in Hi by done. injection Hi as <-.
        exists (Checkout.return_item now c).
        by rewrite list_lookup_middle.
      * exists c'. split; [|done].
        rewrite <- (insert_middle cs1 cs2 c (Checkout.return_item now c)).
        by rewrite list_lookup_insert_ne.
    + rewrite Hbs, !length_app. done.
    + intros i b' Hi Hne. rewrite Hbs in Hi.
      eapply lookup_middle_other; [done|congruence].
    + rewrite Hus, !length_app. done.
    + intros i u' Hi Hne. rewrite Hus in Hi.
      eapply lookup_middle_other; [done|congruence].
Qed.

(** C6 (amended). Return failure atomicity: when the user id and the ISBN
    resolve and no ledger entry of that user and item is open,
    [return_book] raises the no-active-checkout error and leaves the
    memory (every loan, book and user) as it was; and a second return of
    the same pair right after a successful one fails in this way whenever
    the pair had exactly one open entry before the first. *)
Theorem return_book_no_active_loan now now' user_id isbn s :
  is_Some (UserManager.get_user_by_id (users s) user_id) →
  is_Some (BookManager.get_book_by_isbn (books s) isbn) →
  (Forall (λ c, ¬ active_for user_id isbn c) (checkouts s) →
     return_book now user_id isbn s = (Raises (no_active_checkout user_id isbn), s))
  ∧ (∀ s', return_book now user_id isbn s = (Returns (), s') →
       length (filter (active_for user_id isbn) (checkouts s)) = 1 →
       return_book now' user_id isbn s'
       = (Raises (no_active_checkout user_id isbn), s')).
Proof.
  intros [[iu u] Hu] [[ib b] Hb]. split.
  - intros Hnone. apply (list_find_None (active_for user_id isbn)) in Hnone.
    by rewrite return_book_eq, Hu, Hb, Hnone.
  - intros s'. rewrite (return_book_eq now), Hu, Hb.
    destruct (list_find (active_for user_id isbn) (checkouts s)) as [[ic c]|] eqn:Hc;
      [|done].
    intros [= <-] Hone. rewrite return_book_eq. cbn [checkouts books users].
    destruct (get_book_after_store _ _ _ _ true Hb) as [_ ->].
    destruct (get_user_after_store _ _ _ _ (λ u, User.return_item u isbn)
                (λ u', return_item_user_id u' isbn) Hu) as [_ ->].
    pose proof (active_after_close now _ _ _ _ _ Hc) as Hlen.
    rewrite Hone in Hlen. apply nil_length_inv in Hlen.
    assert (list_find (active_for user_id isbn)
              (alter (Checkout.return_item now) ic (checkouts s)) = None) as ->; [|done].
    apply list_find_None, Forall_forall. intros c' Hc' Hact.
    assert (c' ∈ filter (active_for user_id isbn)
                   (alter (Checkout.return_item now) ic (checkouts s))) as Hin
      by (by apply list_elem_of_filter).
    rewrite Hlen in Hin. by apply elem_of_nil in Hin.
Qed.
End workflow.

(** ** Counting open loans *)
Section ledger_counts.
Context {datetime : Type} `{!DateTime datetime}.
Import CheckoutManager.

Implicit Types (l : list (Checkout.t datetime)) (c : Checkout.t datetime).
Implicit Types (s : state datetime).

Lemma open_count_app x l1 l2 :
  open_count x (l1 ++ l2) = open_count x l1 + open_count x l2.
Proof. unfold open_count. by rewrite filter_app, length_app. Qed.

Lemma open_count_cons x c l :
  open_count x (c :: l)
  = (if decide (Checkout.item_id c = x ∧ Checkout.is_open c) then 1 else 0)
    + open_count x l.
Proof. unfold open_count. rewrite filter_cons. by case_decide. Qed.

Lemma open_count_nil x : open_count x (@nil (Checkout.t datetime)) = 0.
Proof. done. Qed.

Lemma open_items_app uid l1 l2 :
  open_items uid (l1 ++ l2) = open_items uid l1 ++ open_items uid l2.
Proof. unfold open_items. by rewrite filter_app, fmap_app. Qed.

Lemma open_items_cons uid c l :
  open_items uid (c :: l)
  = (if decide (Checkout.user_id c = uid ∧ Checkout.is_open c)
     then [Checkout.item_id c] else []) ++ open_items uid l.
Proof. unfold open_items. rewrite filter_cons. by case_decide. Qed.

Lemma elem_of_open_items uid x l :
  x ∈ open_items uid l ↔ ∃ c, c ∈ l ∧ active_for uid x c.
Proof.
  unfold open_items, active_for. rewrite list_elem_of_fmap. split.
  - intros (c & -> & [[Hu Ho] Hc]%list_elem_of_filter). eauto.
  - intros (c & Hc & Hu & Hx & Ho). exists c. split; [done|].
    by apply list_elem_of_filter.
Qed.

Lemma open_count_zero x l :
  open_count x l = 0 ↔
  Forall (λ c, ¬ (Checkout.item_id c = x ∧ Checkout.is_open c)) l.
Proof.
  unfold open_count. rewrite length_zero_iff_nil. split.
  - intros Hnil. apply Forall_forall. intros c Hc Hp.
    assert (c ∈ filter (λ c, Checkout.item_id c = x ∧ Checkout.is_open c) l) as Hin
      by (by apply list_elem_of_filter).
    rewrite Hnil in Hin. by apply elem_of_nil in Hin.
  - intros Hall. induction Hall as [|c l Hc Hall IH]; [done|].
    rewrite filter_cons. by rewrite decide_False.
Qed.

Lemma open_count_zero_not_held uid x l :
  open_count x l = 0 → x ∉ open_items uid l.
Proof.
  rewrite open_count_zero, elem_of_open_items, Forall_forall.
  intros Hall (c & Hc & _ & Hx & Ho). by apply (Hall c).
Qed.

(** Closing an entry takes it out of every count. *)
Lemma open_count_closed now x c :
  (if decide (Checkout.item_id (Checkout.return_item now c) = x
              ∧ Checkout.is_open (Checkout.return_item now c)) then 1 else 0) = 0.
Proof. rewrite decide_False; [done|]. intros [_ Ho]. discriminate Ho. Qed.

Lemma open_items_closed now uid c :
  (if decide (Checkout.user_id (Checkout.return_item now c) = uid
              ∧ Checkout.is_open (Checkout.return_item now c))
   then [Checkout.item_id (Checkout.return_item now c)] else []) = [].
Proof. rewrite decide_False; [done|]. intros [_ Ho]. discriminate Ho. Qed.

(** Keys of a duplicate-free list around one of its elements. *)
Lemma NoDup_fmap_middle {A} (f : A → string) (l1 l2 : list A) x :
  NoDup (f <$> (l1 ++ x :: l2)) →
  Forall (λ y, f y ≠ f x) l1 ∧ Forall (λ y, f y ≠ f x) l2.
Proof.
  rewrite fmap_app, fmap_cons, NoDup_app.
  intros (_ & Hdisj & [Hx _]%NoDup_cons). split; apply Forall_forall.
  - intros y Hy Heq. apply (Hdisj (f y)); [by apply list_elem_of_fmap_2|].
    rewrite Heq. by left.
  - intros y Hy Heq. apply Hx. rewrite <- Heq. by apply list_elem_of_fmap_2.
Qed.

Lemma flag_counts_loans_mutual_exclusion s :
  flag_counts_loans s → mutual_exclusion s.
Proof.
  unfold flag_counts_loans, mutual_exclusion. intros Hfl.
  eapply Forall_impl; [done|].
  intros b ->. by destruct (Book.is_available b).
Qed.

(** One transaction keeps the ISBNs, and keeps every flag equal to the
    count of open loans of its book. *)
Lemma step_flag_counts_loans s r :
  unique_isbns s → flag_counts_loans s →
  unique_isbns (step s r) ∧ flag_counts_loans (step s r).
Proof.
  unfold unique_isbns, flag_counts_loans, step. intros Hnd Hfl.
  destruct r as [now user_id isbn|now user_id isbn]; cbn [exec].
  - destruct (checkout_book_effect now user_id isbn s)
      as [->|(bs1 & b & bs2 & us1 & u & us2 & Hbs & Hb & _ & Hav & _ & _ & _ & ->)];
      [done|].
    cbn [books checkouts]. rewrite Hbs in Hnd, Hfl.
    split; [by rewrite fmap_app, fmap_cons in *|].
    destruct (NoDup_fmap_middle _ _ _ _ Hnd) as [H1 H2]. rewrite Hb in H1, H2.
    apply Forall_app in Hfl as [Hfl1 [Hflb Hfl2]%Forall_cons].
    assert (∀ b', Book.item_id b' ≠ isbn →
              open_count (Book.item_id b')
                (checkouts s ++ [Checkout.init now user_id isbn None None])
              = open_count (Book.item_id b') (checkouts s)) as Hother.
    { intros b' Hne. rewrite open_count_app, open_count_cons, open_count_nil.
      rewrite decide_False; [lia|]. cbn. intros [? _]. congruence. }
    assert (∀ bs, Forall (λ b', Book.item_id b' ≠ isbn) bs →
              Forall (λ b', open_count (Book.item_id b') (checkouts s)
                            = if Book.is_available b' then 0 else 1) bs →
              Forall (λ b', open_count (Book.item_id b')
                              (checkouts s ++ [Checkout.init now user_id isbn None None])
                            = if Book.is_available b' then 0 else 1) bs) as Hframe.
    { intros bs Hne Hbs'. rewrite Forall_forall in Hne, Hbs'.
      apply Forall_forall. intros b' Hin. rewrite Hother by auto. auto. }
    apply Forall_app. split; [by apply Hframe|].
    apply Forall_cons. split; [|by apply Hframe].
    cbn [Book.set_is_available Book.item_id Book.is_available].
    rewrite open_count_app, open_count_cons, open_count_nil, Hflb, Hav, Hb.
    by rewrite decide_True.
  - destruct (return_book_effect now user_id isbn s)
      as [->|(bs1 & b & bs2 & us1 & u & us2 & cs1 & c & cs2
              & Hbs & Hb & _ & _ & _ & _ & Hcs & (_ & Hci & Hco) & _ & ->)];
      [done|].
    cbn [books checkouts]. rewrite Hbs in Hnd, Hfl. rewrite Hcs in Hfl.
    split; [by rewrite fmap_app, fmap_cons in *|].
    destruct (NoDup_fmap_middle _ _ _ _ Hnd) as [H1 H2]. rewrite Hb in H1, H2.
    apply Forall_app in Hfl as [Hfl1 [Hflb Hfl2]%Forall_cons].
    assert (∀ x, open_count x (cs1 ++ c :: cs2)
                 = (if decide (x = isbn) then 1 else 0)
                   + open_count x (cs1 ++ Checkout.return_item now c :: cs2)) as Hcount.
    { intros x. rewrite !open_count_app, !open_count_cons, open_count_closed.
      destruct (decide (x = isbn)) as [->|Hne].
      - rewrite decide_True by done. lia.
      - rewrite decide_False; [lia|]. intros [? _]. congruence. }
    assert (∀ bs, Forall (λ b', Book.item_id b' ≠ isbn) bs →
              Forall (λ b', open_count (Book.item_id b') (cs1 ++ c :: cs2)
                            = if Book.is_available b' then 0 else 1) bs →
              Forall (λ b', open_count (Book.item_id b')
                              (cs1 ++ Checkout.return_item now c :: cs2)
                            = if Book.is_available b' then 0 else 1) bs) as Hframe.
    { intros bs Hne Hbs'. rewrite Forall_forall in Hne, Hbs'.
      apply Forall_forall. intros b' Hin. rewrite <- (Hbs' b' Hin), Hcount.
      by rewrite decide_False by auto. }
    apply Forall_app. split; [by apply Hframe|].
    apply Forall_cons. split; [|by apply Hframe].
    cbn [Book.set_is_available Book.item_id Book.is_available].
    rewrite Hcount, Hb, decide_True in Hflb by done.
    destruct (Book.is_available b); [lia|]. rewrite Hb. lia.
Qed.

Lemma run_flag_counts_loans rs s :
  unique_isbns s → flag_counts_loans s →
  unique_isbns (run rs s) ∧ flag_counts_loans (run rs s).
Proof.
  revert s. induction rs as [|r rs IH]; intros s Hnd Hfl; [done|].
  cbn. destruct (step_flag_counts_loans s r Hnd Hfl). by apply IH.
Qed.

(** C1 (amended). Mutual-exclusion invariant: starting from any state in
    which no two books share an ISBN and every book has no open loan when
    it is available and exactly one when it is not, every sequence of
    [checkout_book] / [return_book] calls, successful or failing, ends in
    such a state; hence, in the state it ends in, a book is unavailable
    iff exactly one open loan names its ISBN. *)
Theorem mutual_exclusion_invariant (rs : list (request datetime)) s :
  unique_isbns s → flag_counts_loans s →
  unique_isbns (run rs s) ∧ flag_counts_loans (run rs s)
  ∧ mutual_exclusion (run rs s).
Proof.
  intros Hnd Hfl. destruct (run_flag_counts_loans rs s Hnd Hfl) as [? ?].
  split_and!; [done..|]. by apply flag_counts_loans_mutual_exclusion.
Qed.

Lemma borrow_item_held (u : User.t) x :
  NoDup (User.borrowed_items u) →
  NoDup (User.borrowed_items (User.borrow_item u x))
  ∧ list_to_set (User.borrowed_items (User.borrow_item u x))
    =@{gset string} list_to_set (User.borrowed_items u) ∪ {[x]}.
Proof.
  intros Hnd. unfold User.borrow_item. case_decide as Hx; cbn.
  - split; [|set_solver]. apply NoDup_app. split_and!; [done| |apply NoDup_singleton].
    intros y Hy ->%list_elem_of_singleton. done.
  - split; [done|]. set_solver.
Qed.

Lemma return_item_held (u : User.t) x :
  NoDup (User.borrowed_items u) →
  NoDup (User.borrowed_items (User.return_item u x))
  ∧ list_to_set (User.borrowed_items (User.return_item u x))
    =@{gset string} list_to_set (User.borrowed_items u) ∖ {[x]}.
Proof.
  intros Hnd. rewrite return_item_borrowed.
  destruct (list_remove_NoDup x _ Hnd) as [Hnd' Hin]. split; [done|].
  apply set_eq. intros y.
  rewrite elem_of_difference, !elem_of_list_to_set, Hin, elem_of_singleton. done.
Qed.

(** One transaction keeps the whole consistency invariant. *)
Lemma step_consistent s r : consistent s → consistent (step s r).
Proof.
  intros (Hnd & Hfl & Hndu & Hset).
  destruct (step_flag_counts_loans s r Hnd Hfl) as [Hnd' Hfl'].
  split_and!; [done..| |]; revert Hndu Hset Hfl;
    unfold unique_user_ids, set_consistency, flag_counts_loans, step; intros Hndu Hset Hfl.
  - destruct r as [now user_id isbn|now user_id isbn]; cbn [exec].
    + destruct (checkout_book_effect now user_id isbn s)
        as [->|(bs1 & b & bs2 & us1 & u & us2 & _ & _ & _ & _ & Hus & _ & _ & ->)];
        [done|].
      cbn [users]. rewrite Hus in Hndu.
      by rewrite fmap_app, fmap_cons, borrow_item_user_id in *.
    + destruct (return_book_effect now user_id isbn s)
        as [->|(bs1 & b & bs2 & us1 & u & us2 & cs1 & c & cs2
                & _ & _ & _ & Hus & _ & _ & _ & _ & _ & ->)]; [done|].
      cbn [users]. rewrite Hus in Hndu.
      by rewrite fmap_app, fmap_cons, return_item_user_id in *.
  - destruct r as [now user_id isbn|now user_id isbn]; cbn [exec].
    + destruct (checkout_book_effect now user_id isbn s)
        as [->|(bs1 & b & bs2 & us1 & u & us2 & _ & _ & _ & _ & Hus & Hu & _ & ->)];
        [done|].
      cbn [users checkouts]. rewrite Hus in Hndu, Hset.
      destruct (NoDup_fmap_middle _ _ _ _ Hndu) as [H1 H2]. rewrite Hu in H1, H2.
      apply Forall_app in Hset as [Hs1 [[Hndb Hsu] Hs2]%Forall_cons].
      assert (∀ us, Forall (λ u', User.user_id u' ≠ user_id) us →
                Forall (λ u', NoDup (User.borrowed_items u')
                   ∧ list_to_set (User.borrowed_items u')
                     =@{gset string} list_to_set (open_items (User.user_id u') (checkouts s))) us →
                Forall (λ u', NoDup (User.borrowed_items u')
                   ∧ list_to_set (User.borrowed_items u')
                     =@{gset string} list_to_set (open_items (User.user_id u')
                          (checkouts s ++ [Checkout.init now user_id isbn None None]))) us)
        as Hframe.
      { intros us Hne Hus'. rewrite Forall_forall in Hne, Hus'.
        apply Forall_forall. intros u' Hin. destruct (Hus' u' Hin) as [? ->].
        split; [done|]. rewrite open_items_app, open_items_cons.
        rewrite decide_False; [by rewrite !app_nil_r|].
        cbn. intros [? _]. by apply (Hne u' Hin). }
      apply Forall_app. split; [by apply Hframe|].
      apply Forall_cons. split; [|by apply Hframe].
      destruct (borrow_item_held u isbn Hndb) as [? ->]. split; [done|].
      rewrite borrow_item_user_id, Hu, open_items_app, open_items_cons.
      rewrite decide_True by done. cbn [Checkout.init Checkout.item_id].
      rewrite Hsu, Hu, list_to_set_app_L. set_solver.
    + destruct (return_book_effect now user_id isbn s)
        as [->|(bs1 & b & bs2 & us1 & u & us2 & cs1 & c & cs2
                & Hbs & Hb & _ & Hus & Hu & _ & Hcs & (Hcu & Hci & Hco) & _ & ->)];
        [done|].
      cbn [users checkouts]. rewrite Hus in Hndu, Hset. rewrite Hcs in Hset, Hfl.
      destruct (NoDup_fmap_middle _ _ _ _ Hndu) as [H1 H2]. rewrite Hu in H1, H2.
      apply Forall_app in Hset as [Hs1 [[Hndb Hsu] Hs2]%Forall_cons].
      assert (∀ us, Forall (λ u', User.user_id u' ≠ user_id) us →
                Forall (λ u', NoDup (User.borrowed_items u')
                   ∧ list_to_set (User.borrowed_items u')
                     =@{gset string} list_to_set (open_items (User.user_id u')
                          (cs1 ++ c :: cs2))) us →
                Forall (λ u', NoDup (User.borrowed_items u')
                   ∧ list_to_set (User.borrowed_items u')
                     =@{gset string} list_to_set (open_items (User.user_id u')
                          (cs1 ++ Checkout.return_item now c :: cs2))) us)
        as Hframe.
      { intros us Hne Hus'. rewrite Forall_forall in Hne, Hus'.
        apply Forall_forall. intros u' Hin. destruct (Hus' u' Hin) as [? ->].
        split; [done|]. rewrite !open_items_app, !open_items_cons, open_items_closed.
        rewrite decide_False; [done|]. intros [? _]. apply (Hne u' Hin). congruence. }
      apply Forall_app. split; [by apply Hframe|].
      apply Forall_cons. split; [|by apply Hframe].
      destruct (return_item_held u isbn Hndb) as [? ->]. split; [done|].
      rewrite return_item_user_id, Hu, Hsu, Hu.
      rewrite !open_items_app, !open_items_cons, open_items_closed.
      rewrite decide_True by done. rewrite Hci.
      (* the book's flag bounds the open loans of the ISBN by one *)
      rewrite Hbs in Hfl. apply Forall_app in Hfl as [_ [Hflb _]%Forall_cons].
      rewrite Hb, open_count_app, open_count_cons, decide_True in Hflb by done.
      assert (open_count isbn cs1 = 0 ∧ open_count isbn cs2 = 0) as [Hz1 Hz2]
        by (destruct (Book.is_available b); lia).
      apply (open_count_zero_not_held user_id) in Hz1, Hz2.
      rewrite !list_to_set_app_L. cbn [app]. set_solver.
Qed.

Lemma run_consistent rs s : consistent s → consistent (run rs s).
Proof.
  revert s. induction rs as [|r rs IH]; intros s Hs; [done|].
  cbn. by apply IH, step_consistent.
Qed.

(** C2 (amended). Set-consistency invariant: starting from any state in
    which user ids and ISBNs are unique, every book has no open loan when
    it is available and exactly one when it is not, and every user's held
    list is duplicate-free and, as a set, equals the set of items the user
    has an open loan for, every sequence of [checkout_book] /
    [return_book] calls, successful or failing, ends in such a state; in
    particular the held lists stay duplicate-free and equal to the
    open-loan sets. *)
Theorem set_consistency_invariant (rs : list (request datetime)) s :
  consistent s →
  consistent (run rs s) ∧ set_consistency (run rs s).
Proof.
  intros Hs. pose proof (run_consistent rs s Hs) as Hs'.
  split; [done|]. by destruct Hs' as (_ & _ & _ & ?).
Qed.
End ledger_counts.

(** ** Record forms *)
Section records.
Context {datetime : Type} `{!DateTime datetime}.

Lemma mapM_as_str_fmap (l : list string) : mapM as_str (VStr <$> l) = Some l.
Proof.
  induction l as [|x l IH]; [done|].
  cbn. rewrite IH. done.
Qed.

Lemma as_str_list_fmap (l : list string) :
  as_str_list (VList (VStr <$> l)) = Some l.
Proof. apply mapM_as_str_fmap. Qed.

Lemma truthy_isoformat d : truthy (VStr (isoformat d)) = true.
Proof.
  cbn. rewrite bool_decide_eq_false_2; [done|]. apply isoformat_nonempty.
Qed.

Lemma book_round_trip (b : Book.t) : Book.from_dict (Book.to_dict b) = Some b.
Proof.
  destruct b as [title author isbn avail].
  unfold Book.from_dict, Book.to_dict, get_str, get_bool. by simplify_map_eq.
Qed.

Lemma user_round_trip (u : User.t) : User.from_dict (User.to_dict u) = Some u.
Proof.
  destruct u as [name uid items].
  unfold User.from_dict, User.to_dict, get_str, get_str_list. simplify_map_eq.
  rewrite mapM_as_str_fmap. done.
Qed.

Lemma checkout_round_trip now (c : Checkout.t datetime) :
  Checkout.from_dict now (Checkout.to_dict c) = Some c.
Proof.
  destruct c as [uid iid cd dd rd].
  unfold Checkout.from_dict, Checkout.to_dict, get_str. simplify_map_eq.
  cbn [mbind option_bind as_str]. rewrite !fromisoformat_isoformat.
  cbn [mbind option_bind]. destruct rd as [d|].
  - rewrite truthy_isoformat. cbn [as_str mbind option_bind].
    rewrite fromisoformat_isoformat. done.
  - done.
Qed.

(** C8. Serialization round-trip: [from_dict (to_dict x)] is [x], field
    for field, for every book, user and loan; for a loan an unset return
    date is written as null and a set one as its ISO-8601 string, and both
    are read back as they were. *)
Theorem serialization_round_trip :
  (∀ b : Book.t, Book.from_dict (Book.to_dict b) = Some b)
  ∧ (∀ u : User.t, User.from_dict (User.to_dict u) = Some u)
  ∧ (∀ now (c : Checkout.t datetime), Checkout.from_dict now (Checkout.to_dict c) = Some c)
  ∧ (∀ c : Checkout.t datetime,
       Checkout.to_dict c !! "return_date"
       = Some (match Checkout.return_date c with
               | None => VNone
               | Some d => VStr (isoformat d)
               end))
  ∧ (∀ now (c : Checkout.t datetime),
       Checkout.return_date <$> Checkout.from_dict now (Checkout.to_dict c)
       = Some (Checkout.return_date c)).
Proof.
  split_and!.
  - apply book_round_trip.
  - apply user_round_trip.
  - apply checkout_round_trip.
  - intros c. unfold Checkout.to_dict. by simplify_map_eq.
  - intros now c. by rewrite checkout_round_trip.
Qed.

(** C9. Held-set idempotence and absent no-op: borrowing the same item
    twice gives the user (and the held list) that borrowing it once gives,
    with the item listed once if it was not listed before; returning an
    item that is not in the held list leaves the user unchanged. *)
Theorem held_list_idempotence (u : User.t) (item_id : string) :
  User.borrow_item (User.borrow_item u item_id) item_id = User.borrow_item u item_id
  ∧ (item_id ∉ User.borrowed_items u →
     User.borrowed_items (User.borrow_item (User.borrow_item u item_id) item_id)
     = User.borrowed_items u ++ [item_id])
  ∧ (item_id ∉ User.borrowed_items u → User.return_item u item_id = u).
Proof.
  split_and!.
  - unfold User.borrow_item at 1. rewrite decide_False; [done|].
    intros Hnot. apply Hnot, borrow_item_elem.
  - intros Hnot. unfold User.borrow_item at 1. rewrite decide_False.
    + unfold User.borrow_item. by rewrite decide_True.
    + intros Hnot'. apply Hnot', borrow_item_elem.
  - intros Hnot. unfold User.return_item. by rewrite decide_False.
Qed.

Lemma mapM_as_str_inv (l : list value) (items : list string) :
  mapM as_str l = Some items → l = VStr <$> items.
Proof.
  revert items. induction l as [|v l IH]; intros items.
  - by intros [= <-].
  - cbn. destruct v as [|b|x|l']; try done. cbn.
    destruct (mapM as_str l) as [items'|] eqn:Hl; [|done].
    cbn. intros [= <-]. cbn. f_equal. by apply IH.
Qed.

(** C10. Deserialization performs no invariant validation: on a record
    with the three fields, [User.from_dict] returns the user whose held
    list is the record's [borrowed_items] sequence, element for element;
    whatever it returns lists exactly the record's sequence; and on a
    record that names an item twice the held list it returns has a
    duplicate. *)
Theorem user_from_dict_verbatim :
  (∀ (data : dict) name user_id (items : list string),
     data !! "name" = Some (VStr name) →
     data !! "user_id" = Some (VStr user_id) →
     data !! "borrowed_items" = Some (VList (VStr <$> items)) →
     User.from_dict data = Some (User.mk name user_id items))
  ∧ (∀ (data : dict) u,
     User.from_dict data = Some u →
     data !! "borrowed_items" = Some (VList (VStr <$> User.borrowed_items u)))
  ∧ (∃ (data : dict) u,
     User.from_dict data = Some u ∧ ¬ NoDup (User.borrowed_items u)).
Proof.
  split_and!.
  - intros data name user_id items Hn Hu Hi.
    unfold User.from_dict, get_str, get_str_list. rewrite Hn, Hu, Hi.
    cbn [mbind option_bind as_str]. by rewrite as_str_list_fmap.
  - intros data u. unfold User.from_dict, get_str, get_str_list.
    destruct (data !! "name" ≫= as_str) as [name|]; [|done].
    destruct (data !! "user_id" ≫= as_str) as [uid|]; [|done].
    cbn [mbind option_bind].
    destruct (data !! "borrowed_items") as [v|]; [|done].
    cbn [mbind option_bind]. destruct v as [| | |l]; try done. cbn [as_str_list].
    destruct (mapM as_str l) as [items|] eqn:Hl; [|done].
    intros [= <-]. cbn. by rewrite (mapM_as_str_inv _ _ Hl).
  - exists (User.to_dict (User.mk "Ann" "U1" ["ISBN1"; "ISBN1"])), (User.mk "Ann" "U1" ["ISBN1"; "ISBN1"]).
    split; [apply user_round_trip|].
    cbn. intros [Hnot _]%NoDup_cons. apply Hnot. by left.
Qed.
End records.

(** * Scenarios

    The transactions run on small libraries, with naive datetimes as the
    clock. *)
#[local] Existing Instance naive_datetime.

Import CheckoutManager.

(** Closed decidable statements are settled by evaluation. *)
Ltac by_evaluation := apply (bool_decide_unpack _); vm_compute; exact I.

Definition t1 : Naive.t := Naive.mk (Naive.mk_fields 2024 1 15 10 30 0 0) eq_refl.
Definition t2 : Naive.t := Naive.mk (Naive.mk_fields 2024 1 20 9 5 7 250000) eq_refl.
Definition t3 : Naive.t := Naive.mk (Naive.mk_fields 2024 2 20 9 0 0 0) eq_refl.

Definition dune : Book.t := Book.mk "Dune" "Frank Herbert" "ISBN1" true.
Definition emma : Book.t := Book.mk "Emma" "Jane Austen" "ISBN2" true.
Definition ann : User.t := User.mk "Ann" "U1" [].
Definition bob : User.t := User.mk "Bob" "U2" [].

(** The start of the specification's scenarios: every book on the shelf,
    nobody holding anything, an empty ledger. *)
Definition library0 : state Naive.t := mk [dune; emma] [ann; bob] [].

Definition loan (user_id isbn : string) (t : Naive.t) : Checkout.t Naive.t :=
  Checkout.mk user_id isbn t (plus_days t 14) None.

(** [library0] after Ann's checkout of Dune at [t1]. *)
Definition library1 : state Naive.t :=
  mk [Book.mk "Dune" "Frank Herbert" "ISBN1" false; emma]
     [User.mk "Ann" "U1" ["ISBN1"]; bob]
     [loan "U1" "ISBN1" t1].

(** A ledger with two open loans of the same user and item, as left by
    deleting and re-adding a lent book and lending it again; the book is on
    the shelf. *)
Definition twice_lent : state Naive.t :=
  mk [dune]
     [User.mk "Ann" "U1" ["ISBN1"]]
     [loan "U1" "ISBN1" t1; loan "U1" "ISBN1" t2].

(** Two catalog entries with one ISBN, and two users with one id, as a
    hand-edited file can hold them. *)
Definition two_copies : state Naive.t :=
  mk [dune; Book.mk "Dune (2nd ed.)" "Frank Herbert" "ISBN1" true] [ann] [].

Definition two_anns : state Naive.t :=
  mk [dune] [ann; User.mk "Ann B." "U1" []] [].

Example isoformat_t1 : isoformat t1 = "2024-01-15T10:30:00".
Proof. vm_compute. reflexivity. Qed.

Example isoformat_t2 : isoformat t2 = "2024-01-20T09:05:07.250000".
Proof. vm_compute. reflexivity. Qed.

Example due_date_t3 :
  Naive.get (plus_days t3 14) = Naive.mk_fields 2024 3 5 9 0 0 0.
Proof. vm_compute. reflexivity. Qed.

(** Scenario "checkout then return" of the specification. *)
Example scenario_checkout : checkout_book t1 "U1" "ISBN1" library0 = (Returns (), library1).
Proof. vm_compute. reflexivity. Qed.

Example scenario_return :
  return_book t2 "U1" "ISBN1" library1
  = (Returns (),
     mk [dune; emma] [ann; bob]
        [Checkout.mk "U1" "ISBN1" t1 (plus_days t1 14) (Some t2)]).
Proof. vm_compute. reflexivity. Qed.

Example scenario_second_return :
  (return_book t3 "U1" "ISBN1" (return_book t2 "U1" "ISBN1" library1).2).1
  = Raises (ValueError "No active checkout found for user U1 and book ISBN1").
Proof. vm_compute. reflexivity. Qed.

(** Scenario "double checkout blocked". *)
Example scenario_double_checkout :
  checkout_book t2 "U2" "ISBN1" library1
  = (Raises (ValueError "Book with ISBN ISBN1 is not available"), library1).
Proof. vm_compute. reflexivity. Qed.

(** Why the invariants ask for unique keys: with two entries of one ISBN the
    scan updates the first and the second keeps its flag. *)
Example two_copies_checkout :
  mutual_exclusion two_copies ∧ flag_counts_loans two_copies
  ∧ ¬ flag_counts_loans (step two_copies (CheckoutBook t1 "U1" "ISBN1"))
  ∧ ¬ mutual_exclusion (step two_copies (CheckoutBook t1 "U1" "ISBN1")).
Proof. split_and!; by_evaluation. Qed.

Example two_anns_checkout :
  unique_isbns two_anns ∧ flag_counts_loans two_anns ∧ set_consistency two_anns
  ∧ ¬ set_consistency (step two_anns (CheckoutBook t1 "U1" "ISBN1")).
Proof. split_and!; by_evaluation. Qed.

(** ** The claims on the scenarios *)

(** The amended C1 on the first scenario: lend, refuse, take back. *)
Definition session0 : list (request Naive.t) :=
  [CheckoutBook t1 "U1" "ISBN1"; CheckoutBook t2 "U2" "ISBN1";
   ReturnBook t2 "U2" "ISBN1"; ReturnBook t3 "U1" "ISBN1";
   CheckoutBook t3 "U2" "ISBN2"].

Lemma mutual_exclusion_invariant_witness :
  unique_isbns library0 ∧ flag_counts_loans library0
  ∧ unique_isbns (run session0 library0)
  ∧ flag_counts_loans (run session0 library0)
  ∧ mutual_exclusion (run session0 library0).
Proof.
  assert (unique_isbns library0) as Hnd by by_evaluation.
  assert (flag_counts_loans library0) as Hfl by by_evaluation.
  split; [exact Hnd|]. split; [exact Hfl|].
  exact (mutual_exclusion_invariant session0 library0 Hnd Hfl).
Defined.

(** C1 as stated fails: the wording "unavailable iff exactly one open loan"
    holds of [twice_lent] (the book is on the shelf and has two open loans),
    and no longer holds after one return, which leaves the book on the shelf
    with exactly one open loan. *)
Lemma mutual_exclusion_not_preserved :
  mutual_exclusion twice_lent
  ∧ (return_book t3 "U1" "ISBN1" twice_lent).1 = Returns ()
  ∧ ¬ mutual_exclusion (return_book t3 "U1" "ISBN1" twice_lent).2.
Proof. split_and!; [by_evaluation|by vm_compute|by_evaluation]. Qed.

Lemma set_consistency_invariant_witness :
  consistent library0
  ∧ consistent (run session0 library0)
  ∧ set_consistency (run session0 library0).
Proof.
  assert (consistent library0) as Hs by by_evaluation.
  split; [exact Hs|].
  exact (set_consistency_invariant session0 library0 Hs).
Defined.

(** C2 as stated fails: in [twice_lent] Ann holds exactly the item of her
    open loans; one return empties her list while one of her loans is still
    open. *)
Lemma set_consistency_not_preserved :
  set_consistency twice_lent
  ∧ (return_book t3 "U1" "ISBN1" twice_lent).1 = Returns ()
  ∧ ¬ set_consistency (return_book t3 "U1" "ISBN1" twice_lent).2.
Proof. split_and!; [by_evaluation|by vm_compute|by_evaluation]. Qed.

Lemma checkout_book_success_witness :
  ∃ s',
    checkout_book t1 "U1" "ISBN1" library0 = (Returns (), s')
    ∧ checkouts s' = [] ++ [Checkout.mk "U1" "ISBN1" t1 (plus_days t1 14) None]
    ∧ books s' = <[0 := Book.mk "Dune" "Frank Herbert" "ISBN1" false]> [dune; emma]
    ∧ BookManager.get_book_by_isbn (books s') "ISBN1"
      = Some (0, Book.mk "Dune" "Frank Herbert" "ISBN1" false)
    ∧ users s' = <[0 := User.borrow_item ann "ISBN1"]> [ann; bob]
    ∧ UserManager.get_user_by_id (users s') "U1" = Some (0, User.borrow_item ann "ISBN1")
    ∧ "ISBN1" ∈ User.borrowed_items (User.borrow_item ann "ISBN1").
Proof.
  exact (checkout_book_success t1 "U1" "ISBN1" library0 0 ann 0 dune
           eq_refl eq_refl eq_refl).
Defined.

Lemma checkout_book_failure_witness :
  checkout_book t1 "U9" "ISBN1" library0
    = (Raises (ValueError "User with ID U9 not found"), library0)
  ∧ checkout_book t1 "U1" "ISBN9" library0
    = (Raises (ValueError "Book with ISBN ISBN9 not found"), library0)
  ∧ checkout_book t2 "U2" "ISBN1" library1
    = (Raises (ValueError "Book with ISBN ISBN1 is not available"), library1).
Proof.
  split_and!.
  - exact (proj1 (checkout_book_failure t1 "U9" "ISBN1" library0) eq_refl).
  - exact (proj1 (proj2 (checkout_book_failure t1 "U1" "ISBN9" library0))
             (mk_is_Some _ _ eq_refl) eq_refl).
  - exact (proj1 (proj2 (proj2 (checkout_book_failure t2 "U2" "ISBN1" library1)))
             0 (Book.mk "Dune" "Frank Herbert" "ISBN1" false)
             (mk_is_Some _ _ eq_refl) eq_refl eq_refl).
Defined.

(** Of the two open entries of [twice_lent] the return closes the first. *)
Lemma return_book_success_witness :
  ∃ s' ic c,
    return_book t3 "U1" "ISBN1" twice_lent = (Returns (), s')
    ∧ ic = 0 ∧ c = loan "U1" "ISBN1" t1
    ∧ checkouts s'
      = [Checkout.mk "U1" "ISBN1" t1 (plus_days t1 14) (Some t3); loan "U1" "ISBN1" t2]
    ∧ books s' = [dune]
    ∧ users s' = [ann].
Proof.
  destruct (return_book_success t3 "U1" "ISBN1" twice_lent
              0 (User.mk "Ann" "U1" ["ISBN1"]) 0 dune eq_refl eq_refl)
    as (s' & ic & c & Hrun & Hic & Hact & Hfirst & Hcs & Hbs & _ & Hus & _).
  { exists (loan "U1" "ISBN1" t1). split; [by left|]. by vm_compute. }
  assert (ic = 0) as ->.
  { destruct ic as [|ic]; [done|]. exfalso.
    apply (Hfirst 0 (loan "U1" "ISBN1" t1)); [lia|done|by vm_compute]. }
  injection Hic as <-.
  exists s', 0, (loan "U1" "ISBN1" t1). split_and!; done.
Defined.

Lemma return_book_no_active_loan_witness :
  return_book t2 "U2" "ISBN1" library1
    = (Raises (ValueError "No active checkout found for user U2 and book ISBN1"), library1)
  ∧ return_book t3 "U1" "ISBN1" (run [ReturnBook t2 "U1" "ISBN1"] library1)
    = (Raises (ValueError "No active checkout found for user U1 and book ISBN1"),
       run [ReturnBook t2 "U1" "ISBN1"] library1).
Proof.
  split.
  - apply (proj1 (return_book_no_active_loan t2 t2 "U2" "ISBN1" library1
                    (mk_is_Some _ _ eq_refl) (mk_is_Some _ _ eq_refl))).
    by_evaluation.
  - apply (proj2 (return_book_no_active_loan t2 t3 "U1" "ISBN1" library1
                    (mk_is_Some _ _ eq_refl) (mk_is_Some _ _ eq_refl))).
    + by vm_compute.
    + by vm_compute.
Defined.

(** C6 as stated fails in its last clause: in [twice_lent] a return
    succeeds, and the second return of the same pair right after it succeeds
    as well, closing the other open entry. *)
Lemma second_return_can_succeed :
  (return_book t2 "U1" "ISBN1" twice_lent).1 = Returns ()
  ∧ (return_book t3 "U1" "ISBN1" (return_book t2 "U1" "ISBN1" twice_lent).2).1
    = Returns ()
  ∧ (return_book t3 "U1" "ISBN1" (return_book t2 "U1" "ISBN1" twice_lent).2).1
    ≠ Raises (no_active_checkout "U1" "ISBN1").
Proof. split_and!; by vm_compute. Qed.

Lemma ledger_append_only_with_frame_witness :
  length (checkouts library1)
    ≤ length (checkouts (step library1 (ReturnBook t2 "U1" "ISBN1")))
  ∧ books (step library1 (ReturnBook t2 "U1" "ISBN1")) !! 1 = Some emma
  ∧ users (step library1 (ReturnBook t2 "U1" "ISBN1")) !! 1 = Some bob
  ∧ ∃ c', checkouts (step library1 (ReturnBook t2 "U1" "ISBN1")) !! 0 = Some c'
          ∧ Checkout.checkout_date c' = t1
          ∧ Checkout.due_date c' = plus_days t1 14.
Proof.
  destruct (ledger_append_only_with_frame (ReturnBook t2 "U1" "ISBN1") library1)
    as (_ & Hlen & Hkept & _ & Hbooks & _ & Husers).
  split_and!.
  - exact Hlen.
  - apply Hbooks; [reflexivity|discriminate].
  - apply Husers; [reflexivity|discriminate].
  - destruct (Hkept 0 (loan "U1" "ISBN1" t1) eq_refl) as (c' & Hc' & _ & _ & Hcd & Hdd).
    exists c'. split_and!; done.
Defined.

Lemma serialization_round_trip_witness :
  Book.from_dict (Book.to_dict dune) = Some dune
  ∧ User.from_dict (User.to_dict (User.mk "Ann" "U1" ["ISBN1"]))
    = Some (User.mk "Ann" "U1" ["ISBN1"])
  ∧ Checkout.from_dict t3 (Checkout.to_dict (loan "U1" "ISBN1" t1))
    = Some (loan "U1" "ISBN1" t1)
  ∧ Checkout.to_dict (loan "U1" "ISBN1" t1) !! "return_date" = Some VNone
  ∧ Checkout.to_dict (Checkout.return_item t2 (loan "U1" "ISBN1" t1)) !! "return_date"
    = Some (VStr "2024-01-20T09:05:07.250000")
  ∧ Checkout.return_date
      <$> Checkout.from_dict t3 (Checkout.to_dict (Checkout.return_item t2 (loan "U1" "ISBN1" t1)))
    = Some (Some t2).
Proof.
  destruct (serialization_round_trip (datetime := Naive.t))
    as (Hbook & Huser & Hloan & Hnull & Hback).
  split_and!.
  - apply Hbook.
  - apply Huser.
  - apply Hloan.
  - apply (Hnull (loan "U1" "ISBN1" t1)).
  - apply (Hnull (Checkout.return_item t2 (loan "U1" "ISBN1" t1))).
  - apply (Hback t3 (Checkout.return_item t2 (loan "U1" "ISBN1" t1))).
Defined.

Lemma held_list_idempotence_witness :
  User.borrowed_items (User.borrow_item (User.borrow_item ann "ISBN1") "ISBN1")
    = [] ++ ["ISBN1"]
  ∧ User.borrow_item (User.borrow_item ann "ISBN1") "ISBN1" = User.borrow_item ann "ISBN1"
  ∧ User.return_item (User.mk "Ann" "U1" ["ISBN1"]) "ISBN2" = User.mk "Ann" "U1" ["ISBN1"].
Proof.
  split_and!.
  - apply (proj1 (proj2 (held_list_idempotence ann "ISBN1"))). by_evaluation.
  - apply (proj1 (held_list_idempotence ann "ISBN1")).
  - apply (proj2 (proj2 (held_list_idempotence (User.mk "Ann" "U1" ["ISBN1"]) "ISBN2"))).
    by_evaluation.
Defined.

(** A users file that lists one item twice for Ann. *)
Definition ann_record : dict :=
  <["name" := VStr "Ann"]>
  (<["user_id" := VStr "U1"]>
  (<["borrowed_items" := VList [VStr "ISBN1"; VStr "ISBN2"; VStr "ISBN1"]]> ∅)).

Lemma user_from_dict_verbatim_witness :
  User.from_dict ann_record = Some (User.mk "Ann" "U1" ["ISBN1"; "ISBN2"; "ISBN1"])
  ∧ ¬ NoDup (User.borrowed_items (User.mk "Ann" "U1" ["ISBN1"; "ISBN2"; "ISBN1"])).
Proof.
  split.
  - apply (proj1 user_from_dict_verbatim ann_record "Ann" "U1" ["ISBN1"; "ISBN2"; "ISBN1"]);
      reflexivity.
  - by_evaluation.
Defined.

(** * Catalog, borrowers and storage

    The methods of the two managers outside the transactions, the menu
    commands built on them, and the loading of the three collections. *)

(** ** Scans of a list that grows or shrinks *)
Section more_scans.
Context {A : Type} (P : A → Prop) `{!∀ x, Decision (P x)}.

Lemma list_find_snoc_None (l : list A) x :
  list_find P l = None → P x → list_find P (l ++ [x]) = Some (length l, x).
Proof.
  intros Hl Hx. rewrite <- (Nat.add_0_r (length l)).
  apply list_find_Some. rewrite Nat.add_0_r. split_and!.
  - by rewrite list_lookup_middle.
  - done.
  - intros j y Hj Hlt. rewrite lookup_app_l in Hj by done.
    apply list_find_None in Hl. by eapply Forall_lookup_1 in Hl.
Qed.

Lemma list_find_snoc_other (l : list A) x :
  ¬ P x → list_find P (l ++ [x]) = list_find P l.
Proof.
  intros Hx. induction l as [|y l IH]; cbn.
  - by rewrite decide_False.
  - destruct (decide (P y)); [done|]. by rewrite IH.
Qed.

Lemma delete_middle (l1 l2 : list A) x :
  delete (length l1) (l1 ++ x :: l2) = l1 ++ l2.
Proof. induction l1 as [|y l1 IH]; [done|]. cbn. f_equal. apply IH. Qed.

Lemma list_find_cons (l : list A) x :
  list_find P (x :: l)
  = if decide (P x) then Some (0, x) else prod_map S id <$> list_find P l.
Proof. done. Qed.

(** The object a scan returns does not depend on an element that fails
    the test. *)
Lemma list_find_skip (l1 l2 : list A) x :
  ¬ P x →
  snd <$> list_find P (l1 ++ x :: l2) = snd <$> list_find P (l1 ++ l2).
Proof.
  intros Hx. induction l1 as [|y l1 IH].
  - cbn [app]. rewrite list_find_cons, decide_False by done.
    by destruct (list_find P l2) as [[j z]|].
  - cbn [app]. rewrite !list_find_cons. destruct (decide (P y)); [done|].
    destruct (list_find P (l1 ++ x :: l2)) as [[j z]|],
             (list_find P (l1 ++ l2)) as [[j' z']|]; cbn in *; congruence.
Qed.

Lemma list_find_none_app (l1 l2 : list A) :
  Forall (λ y, ¬ P y) l1 → Forall (λ y, ¬ P y) l2 → list_find P (l1 ++ l2) = None.
Proof. intros H1 H2. apply list_find_None, Forall_app. done. Qed.
End more_scans.

(** [q in s] holds exactly when [s] is some text, then [q], then some
    text. *)
Lemma prefix_true_iff (q s : string) :
  String.prefix q s = true ↔ ∃ post, s = q +:+ post.
Proof.
  revert q. induction s as [|d s IH]; intros [|c q]; cbn.
  - split; [|done]. intros _. by exists "".
  - split; [done|]. by intros [post ?].
  - split; [|done]. intros _. by exists (String d s).
  - destruct (Ascii.ascii_dec c d) as [->|Hne].
    + rewrite IH. split.
      * intros [post ->]. by exists post.
      * intros [post [= ->]]. by exists post.
    + split; [done|]. intros [post [= ? ?]]. done.
Qed.

Lemma str_contains_iff (q s : string) :
  str_contains q s = true ↔ ∃ pre post, s = pre +:+ q +:+ post.
Proof.
  induction s as [|c s IH].
  - cbn [str_contains]. rewrite orb_false_r, prefix_true_iff. split.
    + intros [post ->]. by exists "", post.
    + intros (pre & post & Heq). destruct pre as [|d pre]; [by exists post|done].
  - cbn [str_contains]. rewrite orb_true_iff, prefix_true_iff, IH. split.
    + intros [[post ->]|(pre & post & ->)].
      * by exists "", post.
      * by exists (String c pre), post.
    + intros (pre & post & Heq). destruct pre as [|d pre].
      * left. by exists post.
      * right. injection Heq as -> ->. by exists pre, post.
Qed.

Lemma str_contains_refl (s : string) : str_contains s s = true.
Proof.
  apply str_contains_iff. exists "", "". change ("" +:+ s +:+ "") with (s +:+ "").
  by rewrite NaiveFacts.string_app_nil_r.
Qed.

Lemma str_contains_empty (s : string) : str_contains "" s = true.
Proof. apply str_contains_iff. by exists "", s. Qed.

(** ** book.py: the catalog *)
Section catalog.
Import BookManager.

Implicit Types (books : list Book.t) (isbn : string).

(** X1. [add_book] refuses an ISBN that already resolves and leaves the
    catalog as it was; otherwise it appends one available book with the
    given fields, after which the ISBN resolves to that book and every
    other ISBN resolves as before. *)
Theorem add_book_spec title author isbn books :
  (is_Some (get_book_by_isbn books isbn) →
     add_book title author isbn books = (Raises (already_exists isbn), books))
  ∧ (get_book_by_isbn books isbn = None →
     add_book title author isbn books
       = (Returns (), books ++ [Book.mk title author isbn true])
     ∧ get_book_by_isbn (add_book title author isbn books).2 isbn
       = Some (length books, Book.mk title author isbn true)
     ∧ ∀ isbn', isbn' ≠ isbn →
         get_book_by_isbn (add_book title author isbn books).2 isbn'
         = get_book_by_isbn books isbn').
Proof.
  unfold add_book. split.
  - by intros [[ib b] ->].
  - intros Hnone. rewrite Hnone. cbn [snd]. split_and!.
    + done.
    + by apply (list_find_snoc_None (λ b, Book.item_id b = isbn)).
    + intros isbn' Hne.
      apply (list_find_snoc_other (λ b, Book.item_id b = isbn')). cbn. congruence.
Qed.

(** What [update_book] stores in a field: the argument when it is given
    and not empty, the old value otherwise. *)
Definition updated (old : string) (arg : option string) : string :=
  default old (given arg).

(** X2. [update_book] raises on an ISBN that does not resolve and leaves
    the catalog as it was; otherwise it returns, and the catalog differs
    only at the book the ISBN resolves to, whose title and author are
    replaced by the arguments that are given and not empty, and whose ISBN
    and availability are kept.  With no argument, or empty ones, nothing
    changes. *)
Theorem update_book_spec isbn title author books :
  (get_book_by_isbn books isbn = None →
     update_book isbn title author books = (Raises (not_found isbn), books))
  ∧ (∀ ib b, get_book_by_isbn books isbn = Some (ib, b) →
     update_book isbn title author books
       = (Returns (),
          <[ib := Book.mk (updated (Book.title b) title)
                    (updated (Book.author b) author)
                    (Book.item_id b) (Book.is_available b)]> books)
     ∧ (given title = None → given author = None →
        update_book isbn title author books = (Returns (), books)))
  ∧ (given title = None ↔ title = None ∨ title = Some "").
Proof.
  unfold update_book. split_and!; [by intros ->| |]; last first.
  { destruct title as [t|]; cbn; [|naive_solver].
    case_bool_decide; naive_solver. }
  intros ib b Hb. rewrite Hb.
  apply list_find_split in Hb as (l1 & l2 & -> & <- & _ & _).
  unfold updated. split.
  - destruct (given title) as [t|], (given author) as [a|]; cbn [default];
      rewrite ?alter_middle, ?insert_middle; try done.
    by destruct b.
  - by intros -> ->.
Qed.

(** X3. [delete_book] raises on an ISBN that does not resolve and leaves
    the catalog as it was; otherwise it takes out the one book the ISBN
    resolves to and keeps the others in order.  When ISBNs are unique the
    ISBN no longer resolves afterwards, and every other ISBN resolves to
    the book it resolved to before. *)
Theorem delete_book_spec isbn books :
  (get_book_by_isbn books isbn = None →
     delete_book isbn books = (Raises (not_found isbn), books))
  ∧ (∀ ib b, get_book_by_isbn books isbn = Some (ib, b) →
     delete_book isbn books = (Returns (), delete ib books)
     ∧ (∃ before after,
          books = before ++ b :: after ∧ delete ib books = before ++ after)
     ∧ (NoDup (Book.item_id <$> books) →
        get_book_by_isbn (delete ib books) isbn = None)
     ∧ (∀ isbn', isbn' ≠ isbn →
        snd <$> get_book_by_isbn (delete ib books) isbn'
        = snd <$> get_book_by_isbn books isbn')).
Proof.
  unfold delete_book. split; [by intros ->|].
  intros ib b Hb. rewrite Hb.
  apply list_find_split in Hb as (l1 & l2 & -> & <- & Hisbn & Hl1).
  rewrite delete_middle. split_and!; [done|by exists l1, l2|..].
  - intros Hnd. destruct (NoDup_fmap_middle _ _ _ _ Hnd) as [_ H2].
    apply (list_find_none_app (λ b', Book.item_id b' = isbn)); [done|].
    by rewrite Hisbn in H2.
  - intros isbn' Hne. symmetry.
    apply (list_find_skip (λ b', Book.item_id b' = isbn')). congruence.
Qed.

(** X4. [search_books] returns catalogued books in catalog order; every
    catalogued book is found by its own ISBN, title or author as the query,
    whatever [str.lower] does to them; and when [str.lower] keeps the empty
    string, the empty query returns the whole catalog. *)
Theorem search_books_spec (lower : string → string) books :
  (∀ query, sublist (search_books lower query books) books)
  ∧ (∀ b, b ∈ books →
       b ∈ search_books lower (Book.item_id b) books
       ∧ b ∈ search_books lower (Book.title b) books
       ∧ b ∈ search_books lower (Book.author b) books)
  ∧ (lower "" = "" → search_books lower "" books = books).
Proof.
  unfold search_books, matches. split_and!.
  - intros query. apply sublist_filter.
  - intros b Hb. split_and!; apply list_elem_of_filter; (split; [|done]);
      rewrite !orb_true_iff, str_contains_refl; auto.
  - intros ->. induction books as [|b books IH]; [done|].
    rewrite filter_cons, decide_True; [by rewrite IH|].
    by rewrite str_contains_empty.
Qed.
End catalog.

(** ** user.py: the borrowers *)
Section borrowers.
Import UserManager.

Implicit Types (users : list User.t) (user_id : string).

(** X5. [add_user] refuses an id that already resolves and leaves the
    users as they were; otherwise it appends one user with the given name
    and id who holds nothing, after which the id resolves to that user and
    every other id resolves as before. *)
Theorem add_user_spec name user_id users :
  (is_Some (get_user_by_id users user_id) →
     add_user name user_id users = (Raises (already_exists user_id), users))
  ∧ (get_user_by_id users user_id = None →
     add_user name user_id users = (Returns (), users ++ [User.mk name user_id []])
     ∧ get_user_by_id (add_user name user_id users).2 user_id
       = Some (length users, User.mk name user_id [])
     ∧ ∀ user_id', user_id' ≠ user_id →
         get_user_by_id (add_user name user_id users).2 user_id'
         = get_user_by_id users user_id').
Proof.
  unfold add_user. split.
  - by intros [[iu u] ->].
  - intros Hnone. rewrite Hnone. cbn [snd]. split_and!.
    + done.
    + by apply (list_find_snoc_None (λ u, User.user_id u = user_id)).
    + intros user_id' Hne.
      apply (list_find_snoc_other (λ u, User.user_id u = user_id')). cbn. congruence.
Qed.

(** X6. [update_user] raises on an id that does not resolve and leaves the
    users as they were; otherwise it returns, and the users differ only at
    the one the id resolves to, whose name is replaced when the argument is
    given and not empty, and whose id and held list are kept. *)
Theorem update_user_spec user_id name users :
  (get_user_by_id users user_id = None →
     update_user user_id name users = (Raises (not_found user_id), users))
  ∧ (∀ iu u, get_user_by_id users user_id = Some (iu, u) →
     update_user user_id name users
       = (Returns (),
          <[iu := User.mk (updated (User.name u) name)
                    (User.user_id u) (User.borrowed_items u)]> users)
     ∧ (given name = None →
        update_user user_id name users = (Returns (), users))).
Proof.
  unfold update_user. split; [by intros ->|].
  intros iu u Hu. rewrite Hu.
  apply list_find_split in Hu as (l1 & l2 & -> & <- & _ & _).
  unfold updated. split.
  - destruct (given name) as [n|]; cbn [default];
      rewrite ?alter_middle, ?insert_middle; try done.
    by destruct u.
  - by intros ->.
Qed.

(** X7. [delete_user] raises on an id that does not resolve and leaves the
    users as they were; otherwise it takes out the one user the id resolves
    to and keeps the others in order.  When ids are unique the id no longer
    resolves afterwards, and every other id resolves to the user it
    resolved to before. *)
Theorem delete_user_spec user_id users :
  (get_user_by_id users user_id = None →
     delete_user user_id users = (Raises (not_found user_id), users))
  ∧ (∀ iu u, get_user_by_id users user_id = Some (iu, u) →
     delete_user user_id users = (Returns (), delete iu users)
     ∧ (∃ before after,
          users = before ++ u :: after ∧ delete iu users = before ++ after)
     ∧ (NoDup (User.user_id <$> users) →
        get_user_by_id (delete iu users) user_id = None)
     ∧ (∀ user_id', user_id' ≠ user_id →
        snd <$> get_user_by_id (delete iu users) user_id'
        = snd <$> get_user_by_id users user_id')).
Proof.
  unfold delete_user. split; [by intros ->|].
  intros iu u Hu. rewrite Hu.
  apply list_find_split in Hu as (l1 & l2 & -> & <- & Hid & Hl1).
  rewrite delete_middle. split_and!; [done|by exists l1, l2|..].
  - intros Hnd. destruct (NoDup_fmap_middle _ _ _ _ Hnd) as [_ H2].
    apply (list_find_none_app (λ u', User.user_id u' = user_id)); [done|].
    by rewrite Hid in H2.
  - intros user_id' Hne. symmetry.
    apply (list_find_skip (λ u', User.user_id u' = user_id')). congruence.
Qed.

(** X8. [search_users] returns registered users in their order; every
    user is found by their own id or name as the query; and when
    [str.lower] keeps the empty string, the empty query returns all
    users. *)
Theorem search_users_spec (lower : string → string) users :
  (∀ query, sublist (search_users lower query users) users)
  ∧ (∀ u, u ∈ users →
       u ∈ search_users lower (User.user_id u) users
       ∧ u ∈ search_users lower (User.name u) users)
  ∧ (lower "" = "" → search_users lower "" users = users).
Proof.
  unfold search_users, matches. split_and!.
  - intros query. apply sublist_filter.
  - intros u Hu. split_and!; apply list_elem_of_filter; (split; [|done]);
      rewrite !orb_true_iff, str_contains_refl; auto.
  - intros ->. induction users as [|u users IH]; [done|].
    rewrite filter_cons, decide_True; [by rewrite IH|].
    by rewrite str_contains_empty.
Qed.
End borrowers.

(** ** main.py: what every menu command keeps *)
Module LMS := LibraryManagementSystem.

Section menu.
Context {datetime : Type} `{!DateTime datetime}.
Import CheckoutManager.

Implicit Types (s : state datetime) (c : LMS.command datetime).
Implicit Types (books : list Book.t) (users : list User.t).

Lemma fmap_alter_keep {A B} (f : A → B) (g : A → A) (l : list A) i :
  (∀ x, f (g x) = f x) → f <$> alter g i l = f <$> l.
Proof.
  intros Hg. rewrite (list_fmap_alter f g id).
  - by apply list_alter_id.
  - by apply Forall_forall.
Qed.

Lemma add_book_keys title author isbn books :
  NoDup (Book.item_id <$> books) →
  NoDup (Book.item_id <$> (BookManager.add_book title author isbn books).2).
Proof.
  intros Hnd. unfold BookManager.add_book.
  destruct (BookManager.get_book_by_isbn books isbn) as [[ib b]|] eqn:Hb; [done|].
  cbn [snd]. rewrite fmap_app. apply NoDup_app. split_and!; [done| |apply NoDup_singleton].
  intros x (b & -> & Hin)%list_elem_of_fmap Heq%list_elem_of_singleton.
  apply (list_find_None (λ b, Book.item_id b = isbn)) in Hb.
  rewrite Forall_forall in Hb. by apply (Hb b).
Qed.

Lemma update_book_keys isbn title author books :
  Book.item_id <$> (BookManager.update_book isbn title author books).2
  = Book.item_id <$> books
  ∧ Book.is_available <$> (BookManager.update_book isbn title author books).2
    = Book.is_available <$> books.
Proof.
  unfold BookManager.update_book.
  destruct (BookManager.get_book_by_isbn books isbn) as [[ib b]|]; [|done].
  destruct (given title), (given author); cbn [snd];
    by rewrite ?fmap_alter_keep.
Qed.

Lemma delete_book_sublist isbn books :
  sublist (BookManager.delete_book isbn books).2 books.
Proof.
  unfold BookManager.delete_book.
  destruct (BookManager.get_book_by_isbn books isbn) as [[ib b]|]; [|done].
  apply sublist_delete.
Qed.

Lemma add_user_keys name user_id users :
  NoDup (User.user_id <$> users) →
  NoDup (User.user_id <$> (UserManager.add_user name user_id users).2).
Proof.
  intros Hnd. unfold UserManager.add_user.
  destruct (UserManager.get_user_by_id users user_id) as [[iu u]|] eqn:Hu; [done|].
  cbn [snd]. rewrite fmap_app. apply NoDup_app. split_and!; [done| |apply NoDup_singleton].
  intros x (u & -> & Hin)%list_elem_of_fmap Heq%list_elem_of_singleton.
  apply (list_find_None (λ u, User.user_id u = user_id)) in Hu.
  rewrite Forall_forall in Hu. by apply (Hu u).
Qed.

Lemma update_user_keys user_id name users :
  User.user_id <$> (UserManager.update_user user_id name users).2
  = User.user_id <$> users
  ∧ User.borrowed_items <$> (UserManager.update_user user_id name users).2
    = User.borrowed_items <$> users.
Proof.
  unfold UserManager.update_user.
  destruct (UserManager.get_user_by_id users user_id) as [[iu u]|]; [|done].
  destruct (given name); cbn [snd]; by rewrite ?fmap_alter_keep.
Qed.

Lemma delete_user_sublist user_id users :
  sublist (UserManager.delete_user user_id users).2 users.
Proof.
  unfold UserManager.delete_user.
  destruct (UserManager.get_user_by_id users user_id) as [[iu u]|]; [|done].
  apply sublist_delete.
Qed.

(** The two transactions keep the keys of both collections. *)
Lemma checkout_book_keys now user_id isbn s :
  Book.item_id <$> books (checkout_book now user_id isbn s).2 = Book.item_id <$> books s
  ∧ User.user_id <$> users (checkout_book now user_id isbn s).2 = User.user_id <$> users s.
Proof.
  destruct (checkout_book_effect now user_id isbn s)
    as [->|(bs1 & b & bs2 & us1 & u & us2 & -> & _ & _ & _ & -> & _ & _ & ->)];
    [done|].
  cbn [books users]. by rewrite !fmap_app, !fmap_cons, borrow_item_user_id.
Qed.

Lemma return_book_keys now user_id isbn s :
  Book.item_id <$> books (return_book now user_id isbn s).2 = Book.item_id <$> books s
  ∧ User.user_id <$> users (return_book now user_id isbn s).2 = User.user_id <$> users s.
Proof.
  destruct (return_book_effect now user_id isbn s)
    as [->|(bs1 & b & bs2 & us1 & u & us2 & cs1 & c' & cs2
            & -> & _ & _ & -> & _ & _ & _ & _ & _ & ->)]; [done|].
  cbn [books users]. by rewrite !fmap_app, !fmap_cons, return_item_user_id.
Qed.

Lemma process_choice_unique_keys s c :
  unique_isbns s → unique_user_ids s →
  unique_isbns (LMS.process_choice s c) ∧ unique_user_ids (LMS.process_choice s c).
Proof.
  unfold unique_isbns, unique_user_ids, LMS.process_choice. intros Hb Hu.
  destruct c; cbn [LMS.exec LMS.on_book_manager LMS.on_user_manager snd books users].
  - split; [by apply add_book_keys|done].
  - split; [|done]. by rewrite (proj1 (update_book_keys _ _ _ _)).
  - split; [|done]. eapply sublist_NoDup; [exact Hb|].
    apply fmap_sublist, delete_book_sublist.
  - split; [done|by apply add_user_keys].
  - split; [done|]. by rewrite (proj1 (update_user_keys _ _ _)).
  - split; [done|]. eapply sublist_NoDup; [exact Hu|].
    apply fmap_sublist, delete_user_sublist.
  - destruct (checkout_book_keys now user_id isbn s) as [-> ->]. done.
  - destruct (return_book_keys now user_id isbn s) as [-> ->]. done.
Qed.

(** X9. Unique keys: starting from a memory in which no two books share
    an ISBN and no two users share an id, every sequence of menu commands
    (catalog and borrower edits, checkouts and returns, failing or not)
    ends in such a memory. *)
Theorem unique_keys_invariant (cs : list (LMS.command datetime)) s :
  unique_isbns s → unique_user_ids s →
  unique_isbns (LMS.run cs s) ∧ unique_user_ids (LMS.run cs s).
Proof.
  revert s. induction cs as [|c cs IH]; intros s Hb Hu; [done|].
  cbn. destruct (process_choice_unique_keys s c Hb Hu). by apply IH.
Qed.
End menu.

Section menu_invariants.
Context {datetime : Type} `{!DateTime datetime}.
Import CheckoutManager.

Implicit Types (s : state datetime) (c : LMS.command datetime).
Implicit Types (books : list Book.t) (users : list User.t).

Lemma process_choice_held_lists s c :
  LMS.held_lists_duplicate_free s →
  LMS.held_lists_duplicate_free (LMS.process_choice s c).
Proof.
  unfold LMS.held_lists_duplicate_free, LMS.process_choice. intros Hs.
  destruct c; cbn [LMS.exec LMS.on_book_manager LMS.on_user_manager snd users];
    try done.
  - unfold UserManager.add_user.
    destruct (UserManager.get_user_by_id (users s) user_id); [done|].
    cbn [snd]. apply Forall_app. split; [done|].
    apply Forall_singleton. cbn. constructor.
  - apply Forall_fmap. rewrite (proj2 (update_user_keys _ _ _)).
    by apply Forall_fmap in Hs.
  - unfold UserManager.delete_user.
    destruct (UserManager.get_user_by_id (users s) user_id) as [[iu u]|]; [|done].
    by apply Forall_delete.
  - destruct (checkout_book_effect now user_id isbn s)
      as [->|(bs1 & b & bs2 & us1 & u & us2 & _ & _ & _ & _ & Hus & _ & _ & ->)];
      [done|].
    cbn [users]. rewrite Hus in Hs.
    apply Forall_app in Hs as [H1 [Hu H2]%Forall_cons].
    apply Forall_app. split; [done|]. apply Forall_cons. split; [|done].
    by apply borrow_item_held.
  - destruct (return_book_effect now user_id isbn s)
      as [->|(bs1 & b & bs2 & us1 & u & us2 & cs1 & c' & cs2
              & _ & _ & _ & Hus & _ & _ & _ & _ & _ & ->)]; [done|].
    cbn [users]. rewrite Hus in Hs.
    apply Forall_app in Hs as [H1 [Hu H2]%Forall_cons].
    apply Forall_app. split; [done|]. apply Forall_cons. split; [|done].
    by apply return_item_held.
Qed.

(** X10. Held lists stay duplicate-free: starting from a memory in which
    no user's held list names an item twice, every sequence of menu
    commands ends in such a memory, whatever the ledger and the catalog
    hold. *)
Theorem held_lists_invariant (cs : list (LMS.command datetime)) s :
  LMS.held_lists_duplicate_free s →
  LMS.held_lists_duplicate_free (LMS.run cs s).
Proof.
  revert s. induction cs as [|c cs IH]; intros s Hs; [done|].
  cbn. by apply IH, process_choice_held_lists.
Qed.

(** An entry [e'] carries on an entry [e]: the same loan, closed at most
    once. *)
Definition carries_on (e e' : Checkout.t datetime) : Prop :=
  Checkout.user_id e' = Checkout.user_id e
  ∧ Checkout.item_id e' = Checkout.item_id e
  ∧ Checkout.checkout_date e' = Checkout.checkout_date e
  ∧ Checkout.due_date e' = Checkout.due_date e
  ∧ (Checkout.return_date e ≠ None → e' = e).

Lemma process_choice_ledger s c i e :
  checkouts s !! i = Some e →
  ∃ e', checkouts (LMS.process_choice s c) !! i = Some e' ∧ carries_on e e'.
Proof.
  unfold LMS.process_choice, carries_on. intros Hi.
  destruct c; cbn [LMS.exec LMS.on_book_manager LMS.on_user_manager snd checkouts];
    try (exists e; by split_and!).
  - destruct (checkout_book_effect now user_id isbn s)
      as [->|(bs1 & b & bs2 & us1 & u & us2 & _ & _ & _ & _ & _ & _ & _ & ->)];
      [exists e; by split_and!|].
    cbn [checkouts]. exists e. split; [by apply lookup_app_l_Some|done].
  - destruct (return_book_effect now user_id isbn s)
      as [->|(bs1 & b & bs2 & us1 & u & us2 & cs1 & e0 & cs2
              & _ & _ & _ & _ & _ & _ & Hcs & (_ & _ & Hopen) & _ & ->)];
      [exists e; by split_and!|].
    cbn [checkouts]. rewrite Hcs in Hi.
    destruct (decide (i = length cs1)) as [->|Hne].
    + rewrite list_lookup_middle in Hi by done. injection Hi as <-.
      exists (Checkout.return_item now e0).
      rewrite list_lookup_middle by done. by split_and!.
    + exists e. split; [|done].
      rewrite <- (insert_middle cs1 cs2 e0 (Checkout.return_item now e0)).
      by rewrite list_lookup_insert_ne.
Qed.

(** X11. The ledger is permanent under the whole menu: after any sequence
    of menu commands every entry is still at its place with its user id,
    item id, checkout date and due date, and an entry that was closed is
    exactly as it was.  No command removes, reorders or reopens a loan. *)
Theorem ledger_history_permanent (cs : list (LMS.command datetime)) s i e :
  checkouts s !! i = Some e →
  ∃ e', checkouts (LMS.run cs s) !! i = Some e'
        ∧ Checkout.user_id e' = Checkout.user_id e
        ∧ Checkout.item_id e' = Checkout.item_id e
        ∧ Checkout.checkout_date e' = Checkout.checkout_date e
        ∧ Checkout.due_date e' = Checkout.due_date e
        ∧ (Checkout.return_date e ≠ None → e' = e).
Proof.
  revert s e. induction cs as [|c cs IH]; intros s e Hi.
  - exists e. by split_and!.
  - cbn. destruct (process_choice_ledger s c i e Hi) as (e1 & Hi1 & H1).
    destruct (IH _ _ Hi1) as (e' & Hi' & H2). exists e'. split; [done|].
    destruct H1 as (Hu1 & Hi1' & Hc1' & Hd1 & Hc1), H2 as (Hu2 & Hi2 & Hc2' & Hd2 & Hc2).
    split_and!; [congruence..|]. intros Hclosed.
    rewrite <- (Hc1 Hclosed). apply Hc2. by rewrite (Hc1 Hclosed).
Qed.
End menu_invariants.

Section menu_consistency.
Context {datetime : Type} `{!DateTime datetime}.
Import CheckoutManager.

Implicit Types (s : state datetime) (c : LMS.command datetime).
Implicit Types (books : list Book.t) (users : list User.t).

(** An edit changes one object and keeps what the invariants read. *)
Lemma update_book_effect isbn title author books :
  (BookManager.update_book isbn title author books).2 = books
  ∨ ∃ l1 b b' l2,
      books = l1 ++ b :: l2
      ∧ (BookManager.update_book isbn title author books).2 = l1 ++ b' :: l2
      ∧ Book.item_id b' = Book.item_id b
      ∧ Book.is_available b' = Book.is_available b.
Proof.
  unfold BookManager.update_book.
  destruct (BookManager.get_book_by_isbn books isbn) as [[ib b]|] eqn:Hb; [|by left].
  apply list_find_split in Hb as (l1 & l2 & -> & <- & _ & _).
  right. exists l1, b. cbn [snd].
  destruct (given title) as [t|], (given author) as [a|];
    rewrite ?alter_middle; eexists _, l2; done.
Qed.

Lemma update_user_effect user_id name users :
  (UserManager.update_user user_id name users).2 = users
  ∨ ∃ l1 u u' l2,
      users = l1 ++ u :: l2
      ∧ (UserManager.update_user user_id name users).2 = l1 ++ u' :: l2
      ∧ User.user_id u' = User.user_id u
      ∧ User.borrowed_items u' = User.borrowed_items u.
Proof.
  unfold UserManager.update_user.
  destruct (UserManager.get_user_by_id users user_id) as [[iu u]|] eqn:Hu; [|by left].
  apply list_find_split in Hu as (l1 & l2 & -> & <- & _ & _).
  right. exists l1, u. cbn [snd].
  destruct (given name) as [n|]; rewrite ?alter_middle; eexists _, l2; done.
Qed.

Lemma list_to_set_empty_nil (l : list string) :
  (∅ : gset string) = list_to_set l ↔ l = [].
Proof.
  split; [|by intros ->]. destruct l as [|x l]; [done|].
  intros Heq. assert (x ∈ (∅ : gset string)) as Hx by (rewrite Heq; set_solver).
  by apply not_elem_of_empty in Hx.
Qed.

(** X12. Which menu commands keep the consistency invariant of the
    transactions (unique keys, every flag counting the open loans of its
    book, every held list equal to the user's open loans): edits and
    deletions of books and users always do, and so do checkouts and
    returns; adding a book does exactly when its ISBN is already
    catalogued (the command fails) or no open loan names it; adding a user
    does exactly when the id is already registered or no open loan names
    it. *)
Theorem menu_command_keeps_consistency s c :
  consistent s →
  (consistent (LMS.process_choice s c) ↔
   match c with
   | LMS.AddBook _ _ isbn =>
       is_Some (BookManager.get_book_by_isbn (books s) isbn)
       ∨ open_count isbn (checkouts s) = 0
   | LMS.AddUser _ user_id =>
       is_Some (UserManager.get_user_by_id (users s) user_id)
       ∨ open_items user_id (checkouts s) = []
   | _ => True
   end).
Proof.
  intros Hs. pose proof Hs as (Hnd & Hfl & Hndu & Hset).
  assert (unique_isbns (LMS.process_choice s c)
          ∧ unique_user_ids (LMS.process_choice s c)) as [Hnd' Hndu']
    by (by apply process_choice_unique_keys).
  revert Hnd' Hndu' Hfl Hset.
  unfold consistent, flag_counts_loans, set_consistency, LMS.process_choice.
  destruct c;
    cbn [LMS.exec LMS.on_book_manager LMS.on_user_manager snd books users checkouts];
    intros Hnd' Hndu' Hfl Hset.
  - unfold BookManager.add_book in *.
    destruct (BookManager.get_book_by_isbn (books s) isbn) as [[ib b]|] eqn:Hb;
      cbn [snd] in *.
    + split; [eauto|done].
    + rewrite Forall_app, Forall_singleton. cbn. split.
      * intros (_ & (_ & Hnew) & _). by right.
      * intros [[? [=]]|Hz]. by split_and!.
  - split; [done|]. intros _. split_and!; try done.
    destruct (update_book_effect isbn (LMS.or_None title) (LMS.or_None author) (books s))
      as [->|(l1 & b & b' & l2 & Hbs & -> & Hi & Ha)]; [done|].
    rewrite Hbs in Hfl. apply Forall_app in Hfl as [H1 [Hb H2]%Forall_cons].
    apply Forall_app. split; [done|]. apply Forall_cons. split; [|done].
    by rewrite Hi, Ha.
  - split; [done|]. intros _. split_and!; try done.
    unfold BookManager.delete_book.
    destruct (BookManager.get_book_by_isbn (books s) isbn) as [[ib b]|]; [|done].
    by apply Forall_delete.
  - unfold UserManager.add_user in *.
    destruct (UserManager.get_user_by_id (users s) user_id) as [[iu u]|] eqn:Hu;
      cbn [snd] in *.
    + split; [eauto|done].
    + rewrite Forall_app, Forall_singleton. cbn. split.
      * intros (_ & _ & _ & _ & _ & Hnew). right. by apply list_to_set_empty_nil.
      * intros [[? [=]]|Hz]. split_and!; try done; [constructor|].
        by rewrite Hz.
  - split; [done|]. intros _. split_and!; try done.
    destruct (update_user_effect user_id (Some name) (users s))
      as [->|(l1 & u & u' & l2 & Hus & -> & Hi & Hh)]; [done|].
    rewrite Hus in Hset. apply Forall_app in Hset as [H1 [Hu H2]%Forall_cons].
    apply Forall_app. split; [done|]. apply Forall_cons. split; [|done].
    by rewrite Hi, Hh.
  - split; [done|]. intros _. split_and!; try done.
    unfold UserManager.delete_user.
    destruct (UserManager.get_user_by_id (users s) user_id) as [[iu u]|]; [|done].
    by apply Forall_delete.
  - split; [done|]. intros _.
    apply (step_consistent s (CheckoutManager.CheckoutBook now user_id isbn) Hs).
  - split; [done|]. intros _.
    apply (step_consistent s (CheckoutManager.ReturnBook now user_id isbn) Hs).
Qed.
End menu_consistency.

Section menu_holes.
Context {datetime : Type} `{!DateTime datetime}.
Import CheckoutManager.

Implicit Types (s : state datetime) (c : LMS.command datetime).

(** Deleting a catalogued book, with unique ISBNs: the ISBN is gone. *)
Lemma delete_book_gone isbn s :
  unique_isbns s →
  is_Some (BookManager.get_book_by_isbn (books s) isbn) →
  BookManager.get_book_by_isbn (books (LMS.process_choice s (LMS.DeleteBook isbn))) isbn
  = None
  ∧ users (LMS.process_choice s (LMS.DeleteBook isbn)) = users s
  ∧ checkouts (LMS.process_choice s (LMS.DeleteBook isbn)) = checkouts s.
Proof.
  unfold unique_isbns, LMS.process_choice. intros Hnd [[ib b] Hb].
  cbn [LMS.exec LMS.on_book_manager snd books users checkouts].
  split; [|done]. unfold BookManager.delete_book. rewrite Hb. cbn [snd].
  apply list_find_split in Hb as (l1 & l2 & Hbs & <- & Hisbn & Hl1).
  rewrite Hbs in Hnd |- *. rewrite delete_middle.
  destruct (NoDup_fmap_middle _ _ _ _ Hnd) as [_ H2]. rewrite Hisbn in H2.
  by apply (list_find_none_app (λ b', Book.item_id b' = isbn)).
Qed.


(** X14. Deleting a book and adding its ISBN again lends it anew: from a
    memory with unique ISBNs in which the ISBN is catalogued and the user
    registered, the commands delete, add, checkout all succeed and append
    one open loan, so the ISBN has one more open loan than before, two of
    them if the deleted book was lent. *)
Theorem relend_after_delete isbn title author now user_id s :
  unique_isbns s →
  is_Some (BookManager.get_book_by_isbn (books s) isbn) →
  is_Some (UserManager.get_user_by_id (users s) user_id) →
  checkouts (LMS.run [LMS.DeleteBook isbn; LMS.AddBook title author isbn;
                      LMS.CheckoutBook now user_id isbn] s)
  = checkouts s ++ [Checkout.mk user_id isbn now (plus_days now 14) None]
  ∧ open_count isbn
      (checkouts (LMS.run [LMS.DeleteBook isbn; LMS.AddBook title author isbn;
                           LMS.CheckoutBook now user_id isbn] s))
    = S (open_count isbn (checkouts s)).
Proof.
  intros Hnd Hb [[iu u] Hu].
  destruct (delete_book_gone isbn s Hnd Hb) as (Hgone & Hus & Hcs).
  cbn [LMS.run foldl].
  set (s1 := LMS.process_choice s (LMS.DeleteBook isbn)) in *. clearbody s1.
  destruct s1 as [bs1 us1 cs1]. cbn [books users checkouts] in Hgone, Hus, Hcs.
  subst us1 cs1.
  assert (checkouts (LMS.process_choice
            (LMS.process_choice (mk bs1 (users s) (checkouts s))
               (LMS.AddBook title author isbn))
            (LMS.CheckoutBook now user_id isbn))
          = checkouts s ++ [Checkout.mk user_id isbn now (plus_days now 14) None]) as ->.
  { unfold LMS.process_choice. cbn [LMS.exec]. rewrite checkout_book_eq.
    cbn [LMS.on_book_manager snd books users checkouts].
    unfold BookManager.add_book. rewrite Hgone. cbn [snd]. rewrite Hu.
    unfold BookManager.get_book_by_isbn in *.
    rewrite (list_find_snoc_None (λ b, Book.item_id b = isbn)) by done.
    done. }
  split; [done|].
  rewrite open_count_app, open_count_cons, open_count_nil.
  rewrite decide_True by done. lia.
Qed.
End menu_holes.

(** ** Loading the collections *)
Section loading.
Context {datetime : Type} `{!DateTime datetime}.

(** X15. A first start loads nothing: when the storage file does not exist,
    or holds a document without the collection's key, each manager starts
    with an empty list. *)
Theorem load_missing_is_empty (now : datetime) (data : document) :
  BookManager.init None = Some []
  ∧ UserManager.init None = Some []
  ∧ CheckoutManager.init now None = Some []
  ∧ (data !! "books" = None → BookManager.init (Some data) = Some [])
  ∧ (data !! "users" = None → UserManager.init (Some data) = Some [])
  ∧ (data !! "checkouts" = None → CheckoutManager.init now (Some data) = Some []).
Proof.
  split_and!; try done.
  - intros Hk. unfold BookManager.init, BookStorage.load_books. cbn. by rewrite Hk.
  - intros Hk. unfold UserManager.init, UserStorage.load_users. cbn. by rewrite Hk.
  - intros Hk. unfold CheckoutManager.init, CheckoutStorage.load_checkouts. cbn.
    by rewrite Hk.
Qed.

Lemma mapM_fmap_Some {A B} (f : A → B) (g : B → option A) (l : list A) :
  (∀ x, g (f x) = Some x) → mapM g (f <$> l) = Some l.
Proof.
  intros Hgf. induction l as [|x l IH]; [done|].
  cbn. rewrite Hgf. cbn. by rewrite IH.
Qed.

(** X16. Restart round-trip: a manager started on the document its
    [_save_*] method hands to the storage holds the list that was saved,
    element for element and in order; for the ledger this includes which
    loans are open. *)
Theorem restart_round_trip (now : datetime) books users
    (checkouts : list (Checkout.t datetime)) :
  BookManager.init (Some (BookManager._save_books books)) = Some books
  ∧ UserManager.init (Some (UserManager._save_users users)) = Some users
  ∧ CheckoutManager.init now (Some (CheckoutManager._save_checkouts checkouts))
    = Some checkouts.
Proof.
  split_and!.
  - unfold BookManager.init, BookManager._save_books, BookStorage.load_books,
      BookStorage.save_books. cbn [Storage.load_data].
    rewrite lookup_singleton_eq. cbn [default].
    apply mapM_fmap_Some, book_round_trip.
  - unfold UserManager.init, UserManager._save_users, UserStorage.load_users,
      UserStorage.save_users. cbn [Storage.load_data].
    rewrite lookup_singleton_eq. cbn [default].
    apply mapM_fmap_Some, user_round_trip.
  - unfold CheckoutManager.init, CheckoutManager._save_checkouts,
      CheckoutStorage.load_checkouts, CheckoutStorage.save_checkouts.
    cbn [Storage.load_data]. rewrite lookup_singleton_eq. cbn [default].
    apply mapM_fmap_Some, checkout_round_trip.
Qed.

Lemma mapM_None_elem {A B} (g : A → option B) (l : list A) x :
  x ∈ l → g x = None → mapM g l = None.
Proof.
  intros Hx Hg. induction Hx as [x l|x y l Hx IH]; cbn.
  - by rewrite Hg.
  - destruct (g y); [|done]. cbn. by rewrite IH.
Qed.

(** X17. One bad record fails the whole load: a book record without one
    of the keys [title], [author], [isbn], [is_available] makes
    [Book.from_dict] raise, and a books file holding such a record anywhere
    makes the constructor of [BookManager] raise; no book is loaded. *)
Theorem load_fails_on_bad_record (data : document) (records : list dict) (d : dict) :
  data !! "books" = Some records →
  d ∈ records →
  (d !! "title" = None ∨ d !! "author" = None ∨ d !! "isbn" = None
   ∨ d !! "is_available" = None) →
  Book.from_dict d = None ∧ BookManager.init (Some data) = None.
Proof.
  intros Hdata Hd Hkey.
  assert (Book.from_dict d = None) as Hnone.
  { unfold Book.from_dict, get_str, get_bool.
    destruct Hkey as [Hk|[Hk|[Hk|Hk]]]; rewrite Hk; cbn;
      repeat (match goal with
              | |- context [?m !! ?k ≫= as_str] => destruct (m !! k ≫= as_str); cbn
              end); done. }
  split; [done|].
  unfold BookManager.init, BookStorage.load_books. cbn [Storage.load_data].
  rewrite Hdata. cbn [default]. by eapply mapM_None_elem.
Qed.

(** X18. Reading a loan record: with the four other fields in place, a
    [return_date] that is null or the empty string gives an open loan, and
    the due date is the one of the record, not recomputed from the checkout
    date; a record without the [return_date] key makes [from_dict]
    raise. *)
Theorem checkout_from_dict_open (now : datetime) (data : dict)
    user_id item_id (checkout_date due_date : datetime) :
  data !! "user_id" = Some (VStr user_id) →
  data !! "item_id" = Some (VStr item_id) →
  data !! "checkout_date" = Some (VStr (isoformat checkout_date)) →
  data !! "due_date" = Some (VStr (isoformat due_date)) →
  ((data !! "return_date" = Some VNone ∨ data !! "return_date" = Some (VStr "")) →
     Checkout.from_dict now data
     = Some (Checkout.mk user_id item_id checkout_date due_date None))
  ∧ (data !! "return_date" = None → Checkout.from_dict now data = None).
Proof.
  intros Hu Hi Hc Hd. unfold Checkout.from_dict, get_str.
  rewrite Hu, Hi, Hc, Hd. cbn [mbind option_bind as_str].
  rewrite !fromisoformat_isoformat. cbn [mbind option_bind]. split.
  - by intros [->| ->].
  - by intros ->.
Qed.
End loading.

(** ** The transactions, composed *)
Section compositions.
Context {datetime : Type} `{!DateTime datetime}.
Import CheckoutManager.

Implicit Types (s : state datetime).

Lemma list_remove_snoc x (l : list string) : x ∉ l → list_remove x (l ++ [x]) = l.
Proof.
  induction l as [|y l IH]; cbn.
  - intros _. by rewrite decide_True.
  - intros [Hne Hl]%not_elem_of_cons. rewrite decide_False by done.
    by rewrite IH.
Qed.

Lemma return_borrowed_item (u : User.t) x :
  x ∉ User.borrowed_items u → User.return_item (User.borrow_item u x) x = u.
Proof.
  intros Hx. unfold User.borrow_item. rewrite decide_True by done.
  unfold User.return_item. cbn. rewrite decide_True by set_solver.
  rewrite list_remove_snoc by done. by destruct u.
Qed.

(** X19. A checkout followed by the return of the same pair puts the
    catalog and the borrowers back: when the user id and the ISBN resolve,
    the book is available and the user does not hold the ISBN, both calls
    succeed, the books and the users are then exactly as before the
    checkout, and the ledger is one entry longer with as many open loans of
    the ISBN as before. *)
Theorem checkout_then_return_restores now now' user_id isbn s iu u ib b :
  UserManager.get_user_by_id (users s) user_id = Some (iu, u) →
  BookManager.get_book_by_isbn (books s) isbn = Some (ib, b) →
  Book.is_available b = true →
  isbn ∉ User.borrowed_items u →
  ∃ s1 s2,
    checkout_book now user_id isbn s = (Returns (), s1)
    ∧ return_book now' user_id isbn s1 = (Returns (), s2)
    ∧ books s2 = books s
    ∧ users s2 = users s
    ∧ length (checkouts s2) = S (length (checkouts s))
    ∧ open_count isbn (checkouts s2) = open_count isbn (checkouts s).
Proof.
  intros Hu Hb Hav Hheld.
  destruct (list_find_exists (active_for user_id isbn)
              (checkouts s ++ [Checkout.init now user_id isbn None None]))
    as (ic & c & Hc).
  { exists (Checkout.init now user_id isbn None None). split; [set_solver|done]. }
  exists (mk (alter (Book.set_is_available false) ib (books s))
             (alter (λ u, User.borrow_item u isbn) iu (users s))
             (checkouts s ++ [Checkout.init now user_id isbn None None])).
  exists (mk (alter (Book.set_is_available true) ib
                (alter (Book.set_is_available false) ib (books s)))
             (alter (λ u, User.return_item u isbn) iu
                (alter (λ u, User.borrow_item u isbn) iu (users s)))
             (alter (Checkout.return_item now') ic
                (checkouts s ++ [Checkout.init now user_id isbn None None]))).
  rewrite checkout_book_eq, Hu, Hb, Hav. split; [done|].
  rewrite return_book_eq. cbn [books users checkouts].
  destruct (get_book_after_store _ _ _ _ false Hb) as [_ ->].
  destruct (get_user_after_store _ _ _ _ (λ u, User.borrow_item u isbn)
              (λ u', borrow_item_user_id u' isbn) Hu) as [_ ->].
  rewrite Hc. split; [done|].
  apply list_find_split in Hb as (bs1 & bs2 & Hbs & <- & _ & _).
  apply list_find_split in Hu as (us1 & us2 & Hus & <- & _ & _).
  rewrite Hbs, Hus, !alter_middle, return_borrowed_item by done.
  split_and!.
  - destruct b as [t a i av]. cbn in Hav. by subst av.
  - done.
  - by rewrite length_alter, length_app, Nat.add_comm.
  - pose proof Hc as (cs1 & cs2 & Hcs & <- & (_ & Hci & Hco) & _)%list_find_split.
    rewrite Hcs, alter_middle.
    assert (open_count isbn (checkouts s ++ [Checkout.init now user_id isbn None None])
            = S (open_count isbn (checkouts s))) as Hplus.
    { rewrite open_count_app, open_count_cons, open_count_nil.
      rewrite decide_True by done. lia. }
    rewrite Hcs in Hplus.
    rewrite !open_count_app, !open_count_cons, open_count_closed in *.
    rewrite decide_True in Hplus by done.
    lia.
Qed.

(** X20. No double checkout: right after a successful checkout of an ISBN,
    a checkout of the same ISBN by any registered user raises the
    not-available error and changes nothing. *)
Theorem double_checkout_blocked now now' user_id user_id' isbn s s1 :
  checkout_book now user_id isbn s = (Returns (), s1) →
  is_Some (UserManager.get_user_by_id (users s1) user_id') →
  checkout_book now' user_id' isbn s1 = (Raises (book_not_available isbn), s1).
Proof.
  rewrite checkout_book_eq.
  destruct (UserManager.get_user_by_id (users s) user_id) as [[iu u]|] eqn:Hu; [|done].
  destruct (BookManager.get_book_by_isbn (books s) isbn) as [[ib b]|] eqn:Hb; [|done].
  destruct (Book.is_available b); [|done].
  intros [= <-] [[iu' u'] Hu']. rewrite checkout_book_eq, Hu'.
  cbn [books users checkouts] in *.
  by destruct (get_book_after_store _ _ _ _ false Hb) as [_ ->].
Qed.
End compositions.

(** ** The catalog, the borrowers and the menu on the scenarios *)

(** [str.lower] on ASCII text. *)
Definition ascii_lower (c : ascii) : ascii :=
  let n := N_of_ascii c in
  if ((65 <=? n) && (n <=? 90))%N then ascii_of_N (n + 32) else c.

Fixpoint lower_ascii (s : string) : string :=
  match s with
  | EmptyString => EmptyString
  | String c s' => String (ascii_lower c) (lower_ascii s')
  end.

Definition ulysses : Book.t := Book.mk "Ulysses" "James Joyce" "ISBN3" true.

Lemma add_book_spec_witness :
  BookManager.add_book "Dune" "F. Herbert" "ISBN1" [dune; emma]
    = (Raises (ValueError "Book with ISBN ISBN1 already exists"), [dune; emma])
  ∧ BookManager.add_book "Ulysses" "James Joyce" "ISBN3" [dune; emma]
    = (Returns (), [dune; emma] ++ [ulysses])
  ∧ BookManager.get_book_by_isbn
      (BookManager.add_book "Ulysses" "James Joyce" "ISBN3" [dune; emma]).2 "ISBN3"
    = Some (2, ulysses).
Proof.
  split_and!.
  - apply (proj1 (add_book_spec "Dune" "F. Herbert" "ISBN1" [dune; emma])).
    by eexists.
  - apply (proj2 (add_book_spec "Ulysses" "James Joyce" "ISBN3" [dune; emma])).
    reflexivity.
  - apply (proj2 (add_book_spec "Ulysses" "James Joyce" "ISBN3" [dune; emma])).
    reflexivity.
Defined.

Lemma update_book_spec_witness :
  BookManager.update_book "ISBN9" (Some "Dune Messiah") None [dune; emma]
    = (Raises (ValueError "Book with ISBN ISBN9 not found"), [dune; emma])
  ∧ BookManager.update_book "ISBN1" (Some "Dune Messiah") (Some "") [dune; emma]
    = (Returns (), [Book.mk "Dune Messiah" "Frank Herbert" "ISBN1" true; emma])
  ∧ BookManager.update_book "ISBN1" (Some "") None [dune; emma]
    = (Returns (), [dune; emma]).
Proof.
  split_and!.
  - apply (proj1 (update_book_spec "ISBN9" (Some "Dune Messiah") None [dune; emma])).
    reflexivity.
  - apply (proj1 (proj2 (update_book_spec "ISBN1" (Some "Dune Messiah") (Some "")
                           [dune; emma])) 0 dune).
    reflexivity.
  - apply (proj1 (proj2 (update_book_spec "ISBN1" (Some "") None [dune; emma])) 0 dune);
      reflexivity.
Defined.

Lemma delete_book_spec_witness :
  BookManager.delete_book "ISBN9" [dune; emma]
    = (Raises (ValueError "Book with ISBN ISBN9 not found"), [dune; emma])
  ∧ BookManager.delete_book "ISBN1" [dune; emma] = (Returns (), [emma])
  ∧ BookManager.get_book_by_isbn [emma] "ISBN1" = None
  ∧ snd <$> BookManager.get_book_by_isbn [emma] "ISBN2" = Some emma.
Proof.
  destruct (proj2 (delete_book_spec "ISBN1" [dune; emma]) 0 dune eq_refl)
    as (Hrun & _ & Hgone & Hkept).
  split_and!.
  - apply (proj1 (delete_book_spec "ISBN9" [dune; emma])). reflexivity.
  - exact Hrun.
  - apply Hgone. by_evaluation.
  - apply (Hkept "ISBN2"). discriminate.
Defined.

Lemma search_books_spec_witness :
  dune ∈ BookManager.search_books lower_ascii "ISBN1" [dune; emma]
  ∧ BookManager.search_books lower_ascii "" [dune; emma] = [dune; emma]
  ∧ sublist (BookManager.search_books lower_ascii "AUSTEN" [dune; emma]) [dune; emma].
Proof.
  destruct (search_books_spec lower_ascii [dune; emma]) as (Hsub & Hself & Hall).
  split_and!.
  - apply (Hself dune). by left.
  - apply Hall. reflexivity.
  - apply Hsub.
Defined.

Example search_books_ignores_case :
  BookManager.search_books lower_ascii "AUSTEN" [dune; emma] = [emma]
  ∧ BookManager.search_books lower_ascii "sbn" [dune; emma] = [dune; emma]
  ∧ BookManager.search_books lower_ascii "Tolstoy" [dune; emma] = [].
Proof. split_and!; by vm_compute. Qed.

Lemma add_user_spec_witness :
  UserManager.add_user "Ann B." "U1" [ann; bob]
    = (Raises (ValueError "User with ID U1 already exists"), [ann; bob])
  ∧ UserManager.add_user "Cy" "U3" [ann; bob]
    = (Returns (), [ann; bob] ++ [User.mk "Cy" "U3" []]).
Proof.
  split.
  - apply (proj1 (add_user_spec "Ann B." "U1" [ann; bob])). by eexists.
  - apply (proj2 (add_user_spec "Cy" "U3" [ann; bob])). reflexivity.
Defined.

Lemma update_user_spec_witness :
  UserManager.update_user "U1" (Some "Anna") [User.mk "Ann" "U1" ["ISBN1"]; bob]
    = (Returns (), [User.mk "Anna" "U1" ["ISBN1"]; bob])
  ∧ UserManager.update_user "U1" (Some "") [User.mk "Ann" "U1" ["ISBN1"]; bob]
    = (Returns (), [User.mk "Ann" "U1" ["ISBN1"]; bob])
  ∧ UserManager.update_user "U9" (Some "Anna") [ann; bob]
    = (Raises (ValueError "User with ID U9 not found"), [ann; bob]).
Proof.
  split_and!.
  - apply (proj1 (proj2 (update_user_spec "U1" (Some "Anna")
                           [User.mk "Ann" "U1" ["ISBN1"]; bob])
                    0 (User.mk "Ann" "U1" ["ISBN1"]) eq_refl)).
  - apply (proj2 (proj2 (update_user_spec "U1" (Some "")
                           [User.mk "Ann" "U1" ["ISBN1"]; bob])
                    0 (User.mk "Ann" "U1" ["ISBN1"]) eq_refl)).
    reflexivity.
  - apply (proj1 (update_user_spec "U9" (Some "Anna") [ann; bob])). reflexivity.
Defined.

Lemma delete_user_spec_witness :
  UserManager.delete_user "U1" [ann; bob] = (Returns (), [bob])
  ∧ UserManager.get_user_by_id [bob] "U1" = None
  ∧ UserManager.delete_user "U9" [ann; bob]
    = (Raises (ValueError "User with ID U9 not found"), [ann; bob]).
Proof.
  destruct (proj2 (delete_user_spec "U1" [ann; bob]) 0 ann eq_refl)
    as (Hrun & _ & Hgone & _).
  split_and!.
  - exact Hrun.
  - apply Hgone. by_evaluation.
  - apply (proj1 (delete_user_spec "U9" [ann; bob])). reflexivity.
Defined.

Lemma search_users_spec_witness :
  bob ∈ UserManager.search_users lower_ascii "Bob" [ann; bob]
  ∧ UserManager.search_users lower_ascii "" [ann; bob] = [ann; bob].
Proof.
  destruct (search_users_spec lower_ascii [ann; bob]) as (_ & Hself & Hall).
  split.
  - apply (Hself bob). set_solver.
  - apply Hall. reflexivity.
Defined.

(** An afternoon at the desk: a book is added, lent, renamed, deleted while
    lent, added again and lent again. *)
Definition afternoon : list (LMS.command Naive.t) :=
  [LMS.AddBook "Ulysses" "James Joyce" "ISBN3";
   LMS.CheckoutBook t1 "U1" "ISBN3";
   LMS.UpdateBook "ISBN3" "Ulysses (1922)" "";
   LMS.AddUser "Cy" "U3";
   LMS.DeleteBook "ISBN3";
   LMS.AddBook "Ulysses" "James Joyce" "ISBN3";
   LMS.CheckoutBook t2 "U3" "ISBN3";
   LMS.ReturnBook t3 "U1" "ISBN3";
   LMS.DeleteUser "U2"].

Lemma unique_keys_invariant_witness :
  unique_isbns (LMS.run afternoon library0)
  ∧ unique_user_ids (LMS.run afternoon library0).
Proof. apply unique_keys_invariant; by_evaluation. Defined.

Lemma held_lists_invariant_witness :
  LMS.held_lists_duplicate_free (LMS.run afternoon library0).
Proof. apply held_lists_invariant. by_evaluation. Defined.

Lemma ledger_history_permanent_witness :
  ∃ e', checkouts (LMS.run afternoon library1) !! 0 = Some e'
        ∧ Checkout.user_id e' = "U1"
        ∧ Checkout.item_id e' = "ISBN1"
        ∧ Checkout.checkout_date e' = t1
        ∧ Checkout.due_date e' = plus_days t1 14
        ∧ (Checkout.return_date (loan "U1" "ISBN1" t1) ≠ None
           → e' = loan "U1" "ISBN1" t1).
Proof.
  exact (ledger_history_permanent afternoon library1 0 (loan "U1" "ISBN1" t1) eq_refl).
Defined.

Lemma menu_command_keeps_consistency_witness :
  consistent (LMS.process_choice library1 (LMS.DeleteBook "ISBN1"))
  ∧ ¬ consistent
        (LMS.process_choice (LMS.process_choice library1 (LMS.DeleteBook "ISBN1"))
           (LMS.AddBook "Dune" "Frank Herbert" "ISBN1")).
Proof.
  assert (consistent library1) as H1 by by_evaluation.
  assert (consistent (LMS.process_choice library1 (LMS.DeleteBook "ISBN1"))) as H2
    by (by apply (menu_command_keeps_consistency library1 (LMS.DeleteBook "ISBN1") H1)).
  split; [exact H2|]. intros H3.
  apply (menu_command_keeps_consistency _ (LMS.AddBook "Dune" "Frank Herbert" "ISBN1") H2)
    in H3 as [[x Hx]|Hz].
  - vm_compute in Hx. discriminate Hx.
  - vm_compute in Hz. discriminate Hz.
Defined.


Lemma relend_after_delete_witness :
  open_count "ISBN1" (checkouts library1) = 1
  ∧ open_count "ISBN1"
      (checkouts (LMS.run [LMS.DeleteBook "ISBN1";
                           LMS.AddBook "Dune" "Frank Herbert" "ISBN1";
                           LMS.CheckoutBook t2 "U2" "ISBN1"] library1))
    = 2.
Proof.
  split; [reflexivity|].
  apply (relend_after_delete "ISBN1" "Dune" "Frank Herbert" t2 "U2" library1).
  - by_evaluation.
  - by eexists.
  - by eexists.
Defined.

(** A books file whose second record lacks its ISBN. *)
Definition emma_without_isbn : dict :=
  <["title" := VStr "Emma"]>
  (<["author" := VStr "Jane Austen"]>
  (<["is_available" := VBool true]> ∅)).

Definition broken_books : document :=
  {["books" := [Book.to_dict dune; emma_without_isbn]]}.

Lemma load_missing_is_empty_witness :
  BookManager.init None = Some []
  ∧ UserManager.init (Some (BookManager._save_books [dune; emma])) = Some []
  ∧ CheckoutManager.init t1 (Some (BookManager._save_books [dune; emma])) = Some [].
Proof.
  destruct (load_missing_is_empty t1 (BookManager._save_books [dune; emma]))
    as (Hb & _ & _ & _ & Hu & Hc).
  split_and!; [exact Hb|apply Hu|apply Hc]; reflexivity.
Defined.

Lemma restart_round_trip_witness :
  BookManager.init (Some (BookManager._save_books (books library1)))
    = Some (books library1)
  ∧ UserManager.init (Some (UserManager._save_users (users library1)))
    = Some (users library1)
  ∧ CheckoutManager.init t3 (Some (CheckoutManager._save_checkouts (checkouts twice_lent)))
    = Some (checkouts twice_lent).
Proof.
  exact (restart_round_trip t3 (books library1) (users library1) (checkouts twice_lent)).
Defined.

Lemma load_fails_on_bad_record_witness :
  BookManager.init (Some broken_books) = None.
Proof.
  assert (emma_without_isbn ∈ [Book.to_dict dune; emma_without_isbn]) as Hin
    by (right; left).
  apply (proj2 (load_fails_on_bad_record broken_books _ emma_without_isbn
                  eq_refl Hin (or_intror (or_intror (or_introl eq_refl))))).
Defined.

Definition loan_record (return_date : value) : dict :=
  <["user_id" := VStr "U1"]>
  (<["item_id" := VStr "ISBN1"]>
  (<["checkout_date" := VStr (isoformat t1)]>
  (<["due_date" := VStr (isoformat t3)]>
  (<["return_date" := return_date]> ∅)))).

Definition loan_record_without_return : dict :=
  <["user_id" := VStr "U1"]>
  (<["item_id" := VStr "ISBN1"]>
  (<["checkout_date" := VStr (isoformat t1)]>
  (<["due_date" := VStr (isoformat t3)]> ∅))).

Lemma checkout_from_dict_open_witness :
  Checkout.from_dict t2 (loan_record VNone) = Some (Checkout.mk "U1" "ISBN1" t1 t3 None)
  ∧ Checkout.from_dict t2 (loan_record (VStr "")) = Some (Checkout.mk "U1" "ISBN1" t1 t3 None)
  ∧ Checkout.from_dict t2 loan_record_without_return = None.
Proof.
  split_and!.
  - apply (proj1 (checkout_from_dict_open t2 (loan_record VNone) "U1" "ISBN1" t1 t3
                    eq_refl eq_refl eq_refl eq_refl)).
    by left.
  - apply (proj1 (checkout_from_dict_open t2 (loan_record (VStr "")) "U1" "ISBN1" t1 t3
                    eq_refl eq_refl eq_refl eq_refl)).
    by right.
  - apply (proj2 (checkout_from_dict_open t2 loan_record_without_return
                    "U1" "ISBN1" t1 t3 eq_refl eq_refl eq_refl eq_refl)).
    reflexivity.
Defined.

Lemma checkout_then_return_restores_witness :
  ∃ s1 s2,
    checkout_book t1 "U1" "ISBN1" library0 = (Returns (), s1)
    ∧ return_book t2 "U1" "ISBN1" s1 = (Returns (), s2)
    ∧ books s2 = books library0
    ∧ users s2 = users library0
    ∧ length (checkouts s2) = S (length (checkouts library0))
    ∧ open_count "ISBN1" (checkouts s2) = open_count "ISBN1" (checkouts library0).
Proof.
  apply (checkout_then_return_restores t1 t2 "U1" "ISBN1" library0 0 ann 0 dune);
    [reflexivity..|]. by_evaluation.
Defined.

Lemma double_checkout_blocked_witness :
  checkout_book t2 "U2" "ISBN1" library1
  = (Raises (ValueError "Book with ISBN ISBN1 is not available"), library1).
Proof.
  apply (double_checkout_blocked t1 t2 "U1" "U2" "ISBN1" library0 library1).
  - vm_compute. reflexivity.
  - by eexists.
Defined.
